(** * The V8 interpreter's bytecode decoder, [src/interpreter/bytecode-decoder.cc]

    A shallow embedding of [BytecodeDecoder::DecodeRegisterOperand],
    [DecodeSignedOperand], [DecodeUnsignedOperand] and [Decode], together with
    the small part of [std::ostream] those functions drive, and the properties
    of the disassembler proved (or refuted) over that embedding.

    Conventions.
    - A [uint8_t] is a [Byte.byte]; a byte buffer is a [list byte].  A pointer
      is a buffer together with a position in it; reading outside the
      buffer (undefined behaviour in C++) is the failure [OutOfBounds].
    - [int8_t], [int16_t], [int32_t], [uint16_t], [uint32_t] values are [Z],
      with every narrowing or sign-changing conversion written out.  Plain
      [int] loop counters, sizes, offsets and register indices are table-sized
      numbers and are computed in [Z].
    - [DCHECK] is modelled as in a debug build: a failed check stops the call
      with [DCheckFailed]; [UNREACHABLE()] stops it with [Unreachable].
    - The instruction-set metadata ([Bytecodes::...]) and the register
      addressing scheme ([Register::FromOperand], [Register::ToString]) live
      in other translation units; they are parameters of the development. *)

From Stdlib Require Import ZArith List String Ascii Bool Lia.
From Stdlib.Strings Require Import Byte.
Import ListNotations.

Open Scope string_scope.
Open Scope Z_scope.

(** ** Fixed-width integer conversions *)

Definition byte_to_Z (b : byte) : Z := Z.of_N (Byte.to_N b).

(** [static_cast<uintW_t>]: reduction modulo [2^w]. *)
Definition to_unsigned (w : Z) (z : Z) : Z := z mod 2 ^ w.

(** [static_cast<intW_t>]: the two's-complement reading of the low [w] bits. *)
Definition to_signed (w : Z) (z : Z) : Z :=
  let m := z mod 2 ^ w in
  if m <? 2 ^ (w - 1) then m else m - 2 ^ w.

(** ** The formatting state of a [std::ios] and the text of a stream *)

Module ios.

(** [std::ios_base::fmtflags] is a bitmask type; the values are those of
    libstdc++'s [_Ios_Fmtflags]. *)
Definition boolalpha : Z := 1.
Definition dec : Z := 2.
Definition fixed : Z := 4.
Definition hex : Z := 8.
Definition internal : Z := 16.
Definition left : Z := 32.
Definition oct : Z := 64.
Definition right : Z := 128.
Definition scientific : Z := 256.
Definition showbase : Z := 512.
Definition showpoint : Z := 1024.
Definition showpos : Z := 2048.
Definition skipws : Z := 4096.
Definition unitbuf : Z := 8192.
Definition uppercase : Z := 16384.
Definition adjustfield : Z := Z.lor left (Z.lor right internal).
Definition basefield : Z := Z.lor dec (Z.lor oct hex).

(** What [copyfmt] transfers between two streams, as far as integer and
    text insertion can observe it. *)
Record fmtstate : Type := {
  flags : Z;
  width : Z;
  precision : Z;
  fill : ascii
}.

(** [std::basic_ios::init]: the state of a freshly constructed [std::ios]. *)
Definition init : fmtstate :=
  {| flags := Z.lor skipws dec; width := 0; precision := 6; fill := " "%char |}.

(** [this->copyfmt(rhs)] on the formatting members: each one is assigned
    from [rhs] (and nothing happens when [rhs] is [this] itself). *)
Definition copyfmt (this rhs : fmtstate) : fmtstate :=
  {| flags := flags rhs; width := width rhs;
     precision := precision rhs; fill := fill rhs |}.

Definition has (f : fmtstate) (bit : Z) : bool :=
  negb (Z.land (flags f) bit =? 0).

End ios.

(** An output stream: its formatting state and the characters written so far. *)
Record ostream : Type := {
  fmt : ios.fmtstate;
  contents : string
}.

(** [os.copyfmt(rhs)]: the formatting members of [os] become those of [rhs];
    the characters already written are untouched. *)
Definition copyfmt (rhs : ios.fmtstate) (os : ostream) : ostream :=
  {| fmt := ios.copyfmt (fmt os) rhs; contents := contents os |}.

(** [os.fill(c)], [os.flags(f)] and [os.width(n)] (the setters). *)
Definition set_fill (c : ascii) (os : ostream) : ostream :=
  {| fmt := {| ios.flags := ios.flags (fmt os); ios.width := ios.width (fmt os);
               ios.precision := ios.precision (fmt os); ios.fill := c |};
     contents := contents os |}.

Definition set_flags (f : Z) (os : ostream) : ostream :=
  {| fmt := {| ios.flags := f; ios.width := ios.width (fmt os);
               ios.precision := ios.precision (fmt os); ios.fill := ios.fill (fmt os) |};
     contents := contents os |}.

Definition set_width (n : Z) (os : ostream) : ostream :=
  {| fmt := {| ios.flags := ios.flags (fmt os); ios.width := n;
               ios.precision := ios.precision (fmt os); ios.fill := ios.fill (fmt os) |};
     contents := contents os |}.

(** *** Formatted insertion *)

Fixpoint replicate (n : nat) (c : ascii) : string :=
  match n with
  | O => EmptyString
  | S n' => String c (replicate n' c)
  end.

Definition strlen (s : string) : Z := Z.of_nat (String.length s).

(** Stage 3 of [num_put::do_put] and the padding of character insertion:
    [sign] is the part that stays in front under [internal] adjustment. *)
Definition padded (f : ios.fmtstate) (sign body : string) : string :=
  let pad := replicate (Z.to_nat (ios.width f - strlen (sign ++ body))) (ios.fill f) in
  let adjust := Z.land (ios.flags f) ios.adjustfield in
  if adjust =? ios.left then sign ++ body ++ pad
  else if adjust =? ios.internal then sign ++ pad ++ body
  else pad ++ sign ++ body.

(** Every formatted inserter appends its padded text and resets the width. *)
Definition insert (sign body : string) (os : ostream) : ostream :=
  set_width 0 {| fmt := fmt os; contents := contents os ++ padded (fmt os) sign body |}.

Definition digit_char (upper : bool) (d : Z) : ascii :=
  ascii_of_N (Z.to_N (if d <? 10 then 48 + d else (if upper then 55 else 87) + d)).

(** The digits of a non-negative number, most significant first; a 32-bit
    value has at most 11 of them in any base the stream supports. *)
Fixpoint digits (fuel : nat) (base : Z) (upper : bool) (n : Z) (acc : string) : string :=
  match fuel with
  | O => acc
  | S fuel' =>
      let acc' := String (digit_char upper (n mod base)) acc in
      if n / base =? 0 then acc' else digits fuel' base upper (n / base) acc'
  end.

Definition numeral (base : Z) (upper : bool) (n : Z) : string :=
  digits 32 base upper n EmptyString.

(** Stages 1 and 2 of [num_put::do_put] for a 32-bit integer: the conversion
    is picked by [basefield]; octal and hexadecimal print the unsigned
    reading of the value; [showpos] only concerns signed decimal output and
    [showbase] only non-zero octal or hexadecimal output.  The result is the
    (sign or base prefix, digits) pair. *)
Definition num_text (f : ios.fmtstate) (is_signed : bool) (v : Z) : string * string :=
  let base := Z.land (ios.flags f) ios.basefield in
  let upper := ios.has f ios.uppercase in
  let u := to_unsigned 32 v in
  if base =? ios.hex then
    ((if ios.has f ios.showbase && negb (u =? 0)
      then (if upper then "0X" else "0x") else ""),
     numeral 16 upper u)
  else if base =? ios.oct then
    ("", (if ios.has f ios.showbase && negb (u =? 0) then "0" else "")
           ++ numeral 8 upper u)
  else if is_signed && (v <? 0) then ("-", numeral 10 upper (- v))
  else ((if is_signed && ios.has f ios.showpos then "+" else ""), numeral 10 upper v).

(** [os << uint32_t] *)
Definition put_uint32 (v : Z) (os : ostream) : ostream :=
  let '(sign, body) := num_text (fmt os) false v in insert sign body os.

(** [os << int32_t] *)
Definition put_int32 (v : Z) (os : ostream) : ostream :=
  let '(sign, body) := num_text (fmt os) true v in insert sign body os.

(** [os << const char*], [os << std::string] and [os << char] *)
Definition put_string (s : string) (os : ostream) : ostream := insert "" s os.
Definition put_char (c : ascii) (os : ostream) : ostream := insert "" (String c "") os.

(** ** Failures, the byte buffer and the two monads *)

Inductive failure : Type :=
| DCheckFailed   (* a [DCHECK] whose condition is false *)
| Unreachable    (* [UNREACHABLE()] was reached *)
| OutOfBounds.   (* a read outside the byte buffer *)

Inductive outcome (A : Type) : Type :=
| Done (a : A)
| Fatal (f : failure).
Arguments Done {A} a.
Arguments Fatal {A} f.

(** A [const uint8_t*]: the buffer it points into and the position in it.
    Forming a pointer never fails; reading through it may. *)
Record pointer : Type := {
  base : list byte;
  pos : Z
}.

(** [&p[k]] *)
Definition ptr_add (p : pointer) (k : Z) : pointer :=
  {| base := base p; pos := pos p + k |}.

(** [p[k]] *)
Definition deref (p : pointer) (k : Z) : outcome byte :=
  if pos p + k <? 0 then Fatal OutOfBounds
  else match nth_error (base p) (Z.to_nat (pos p + k)) with
       | Some b => Done b
       | None => Fatal OutOfBounds
       end.

(** A stream computation that may stop with a failure; the stream keeps what
    was written before the failure. *)
Definition M (A : Type) : Type := ostream -> outcome A * ostream.

Class Monad (m : Type -> Type) : Type := {
  ret : forall {A}, A -> m A;
  bind : forall {A B}, m A -> (A -> m B) -> m B
}.

#[export] Instance outcome_monad : Monad outcome := {
  ret := fun A a => Done a;
  bind := fun A B c k => match c with Done a => k a | Fatal f => Fatal f end
}.

#[export] Instance M_monad : Monad M := {
  ret := fun A a os => (Done a, os);
  bind := fun A B c k os =>
            match c os with
            | (Done a, os') => k a os'
            | (Fatal f, os') => (Fatal f, os')
            end
}.

Notation "x <- c ;; k" := (bind c (fun x => k))
  (at level 61, c at next level, right associativity).
Notation "' pat <- c ;; k" := (bind c (fun x => match x with pat => k end))
  (at level 61, pat pattern, c at next level, right associativity).
Notation "c ;; k" := (bind c (fun _ => k))
  (at level 61, right associativity).

(** A pure, fallible step inside a stream computation. *)
Definition lift {A} (o : outcome A) : M A := fun os => (o, os).

(** [os << ...] and the other stream mutators: they always succeed. *)
Definition emit (f : ostream -> ostream) : M unit := fun os => (Done tt, f os).

Definition DCHECK (cond : bool) : outcome unit :=
  if cond then Done tt else Fatal DCheckFailed.

Definition UNREACHABLE {A} : outcome A := Fatal Unreachable.

(** [for (int i = lo; i < hi; i++) s = body(i, s);] with the loop-carried
    locals in [s]. *)
Fixpoint for_fold {S} (n : nat) (i : Z) (body : Z -> S -> M S) (s : S) : M S :=
  match n with
  | O => ret s
  | Datatypes.S n' => s' <- body i s ;; for_fold n' (i + 1) body s'
  end.

Definition for_range {S} (lo hi : Z) (body : Z -> S -> M S) (s : S) : M S :=
  for_fold (Z.to_nat (hi - lo)) lo body s.

(** ** The enumerations of [bytecodes.h] *)

Module OperandScale.
Inductive t : Type := kSingle | kDouble | kQuad.
End OperandScale.

Module OperandSize.
Inductive t : Type := kNone | kByte | kShort | kQuad.
End OperandSize.

Module OperandType.
Inductive t : Type :=
| kNone
| kMaybeReg | kReg | kRegPair
| kRegOut | kRegOutPair | kRegOutTriple
| kFlag8 | kIntrinsicId | kIdx | kImm | kRegCount | kRuntimeId.
End OperandType.

(** ** The collaborators *)

Module Bytecodes.
(** The static metadata queries of [class Bytecodes] that the decoder
    calls; their tables are not part of this file. *)
Class metadata : Type := {
  Bytecode : Type;
  FromByte : byte -> Bytecode;
  IsPrefixScalingBytecode : Bytecode -> bool;
  PrefixBytecodeToOperandScale : Bytecode -> OperandScale.t;
  Size : Bytecode -> OperandScale.t -> Z;
  ToString : Bytecode -> OperandScale.t -> string;
  IsDebugBreak : Bytecode -> bool;
  NumberOfOperands : Bytecode -> Z;
  GetOperandType : Bytecode -> Z -> OperandType.t;
  GetOperandOffset : Bytecode -> Z -> OperandScale.t -> Z;
  IsRegisterOperandType : OperandType.t -> bool;
  IsUnsignedOperandType : OperandType.t -> bool;
  SizeOfOperand : OperandType.t -> OperandScale.t -> OperandSize.t
}.
End Bytecodes.

Module Register.
(** [class Register]: an [int] index. *)
Record t : Type := Register { index : Z }.

(** The encoding of a register as an operand and its printed name belong
    to the register addressing scheme. *)
Class scheme : Type := {
  FromOperand : Z -> t;
  ToString : t -> Z -> string
}.
End Register.

(** Byte order of the host: [ReadUnalignedUInt16] and [ReadUnalignedUInt32]
    copy the bytes into an integer of the host. *)
Inductive endianness : Type := LittleEndian | BigEndian.

(** Modelled from the spec: [ReadUnalignedUInt16] of [src/utils.h] is not in
    this file; it reads the two bytes at the pointer as one host-order
    [uint16_t]. *)
Definition ReadUnalignedUInt16 (host : endianness) (p : pointer) : outcome Z :=
  b0 <- deref p 0 ;;
  b1 <- deref p 1 ;;
  ret match host with
      | LittleEndian => byte_to_Z b0 + 2 ^ 8 * byte_to_Z b1
      | BigEndian => byte_to_Z b1 + 2 ^ 8 * byte_to_Z b0
      end.

(** Modelled from the spec: [ReadUnalignedUInt32] of [src/utils.h] is not in
    this file; it reads the four bytes at the pointer as one host-order
    [uint32_t]. *)
Definition ReadUnalignedUInt32 (host : endianness) (p : pointer) : outcome Z :=
  b0 <- deref p 0 ;;
  b1 <- deref p 1 ;;
  b2 <- deref p 2 ;;
  b3 <- deref p 3 ;;
  ret match host with
      | LittleEndian =>
          byte_to_Z b0 + 2 ^ 8 * byte_to_Z b1 + 2 ^ 16 * byte_to_Z b2 + 2 ^ 24 * byte_to_Z b3
      | BigEndian =>
          byte_to_Z b3 + 2 ^ 8 * byte_to_Z b2 + 2 ^ 16 * byte_to_Z b1 + 2 ^ 24 * byte_to_Z b0
      end.

(** ** The decoder *)

Section BytecodeDecoder.

Context {md : Bytecodes.metadata} {rs : Register.scheme}.
Variable host : endianness.

Import Bytecodes.

(** [BytecodeDecoder::DecodeSignedOperand] *)
Definition DecodeSignedOperand (operand_start : pointer)
    (operand_type : OperandType.t) (operand_scale : OperandScale.t) : outcome Z :=
  DCHECK (negb (IsUnsignedOperandType operand_type)) ;;
  match SizeOfOperand operand_type operand_scale with
  | OperandSize.kByte =>
      b <- deref operand_start 0 ;; ret (to_signed 8 (byte_to_Z b))
  | OperandSize.kShort =>
      v <- ReadUnalignedUInt16 host operand_start ;; ret (to_signed 16 v)
  | OperandSize.kQuad =>
      v <- ReadUnalignedUInt32 host operand_start ;; ret (to_signed 32 v)
  | OperandSize.kNone => UNREACHABLE
  end.

(** [BytecodeDecoder::DecodeUnsignedOperand] *)
Definition DecodeUnsignedOperand (operand_start : pointer)
    (operand_type : OperandType.t) (operand_scale : OperandScale.t) : outcome Z :=
  DCHECK (IsUnsignedOperandType operand_type) ;;
  match SizeOfOperand operand_type operand_scale with
  | OperandSize.kByte =>
      b <- deref operand_start 0 ;; ret (byte_to_Z b)
  | OperandSize.kShort => ReadUnalignedUInt16 host operand_start
  | OperandSize.kQuad => ReadUnalignedUInt32 host operand_start
  | OperandSize.kNone => UNREACHABLE
  end.

(** [BytecodeDecoder::DecodeRegisterOperand] *)
Definition DecodeRegisterOperand (operand_start : pointer)
    (operand_type : OperandType.t) (operand_scale : OperandScale.t)
    : outcome Register.t :=
  DCHECK (IsRegisterOperandType operand_type) ;;
  operand <- DecodeSignedOperand operand_start operand_type operand_scale ;;
  ret (Register.FromOperand operand).

Definition kBytecodeColumnSize : Z := 6.

(** Lines 65-72 of [Decode]: the opcode, and the operand scale and prefix
    length when the first byte is a scaling prefix. *)
Definition resolve_prefix (bytecode_start : pointer)
    : outcome (Z * OperandScale.t * Bytecode) :=
  b0 <- deref bytecode_start 0 ;;
  let bytecode := FromByte b0 in
  let prefix_offset := 0 in
  let operand_scale := OperandScale.kSingle in
  if IsPrefixScalingBytecode bytecode then
    let prefix_offset := 1 in
    let operand_scale := PrefixBytecodeToOperandScale bytecode in
    b1 <- deref bytecode_start 1 ;;
    ret (prefix_offset, operand_scale, FromByte b1)
  else ret (prefix_offset, operand_scale, bytecode).

(** Lines 136-142: the block shared by the pair and triple cases.  It
    bumps the local [range] and prints [first-last]. *)
Definition print_register_range (operand_start : pointer) (op_type : OperandType.t)
    (operand_scale : OperandScale.t) (parameter_count : Z) (range : Z) : M Z :=
  let range := range + 1 in
  first_reg <- lift (DecodeRegisterOperand operand_start op_type operand_scale) ;;
  let last_reg := Register.Register (Register.index first_reg + range) in
  emit (put_string (Register.ToString first_reg parameter_count)) ;;
  emit (put_string "-") ;;
  emit (put_string (Register.ToString last_reg parameter_count)) ;;
  ret range.

(** Lines 99-150: the body of the operand loop.  The local [range] is
    declared before the loop, so it is carried from one operand to the
    next; operands of one [<<] chain are evaluated left to right. *)
Definition print_operand (bytecode_start : pointer) (parameter_count : Z)
    (prefix_offset : Z) (operand_scale : OperandScale.t) (bytecode : Bytecode)
    (number_of_operands : Z) (i : Z) (range : Z) : M Z :=
  let op_type := GetOperandType bytecode i in
  let operand_offset := GetOperandOffset bytecode i operand_scale in
  let operand_start := ptr_add bytecode_start (prefix_offset + operand_offset) in
  range <-
    match op_type with
    | OperandType.kRegCount =>
        emit (put_string "#") ;;
        v <- lift (DecodeUnsignedOperand operand_start op_type operand_scale) ;;
        emit (put_uint32 v) ;;
        ret range
    | OperandType.kIdx | OperandType.kRuntimeId | OperandType.kIntrinsicId =>
        emit (put_string "[") ;;
        v <- lift (DecodeUnsignedOperand operand_start op_type operand_scale) ;;
        emit (put_uint32 v) ;;
        emit (put_string "]") ;;
        ret range
    | OperandType.kImm =>
        emit (put_string "[") ;;
        v <- lift (DecodeSignedOperand operand_start op_type operand_scale) ;;
        emit (put_int32 v) ;;
        emit (put_string "]") ;;
        ret range
    | OperandType.kFlag8 =>
        emit (put_string "#") ;;
        v <- lift (DecodeUnsignedOperand operand_start op_type operand_scale) ;;
        emit (put_uint32 v) ;;
        ret range
    | OperandType.kMaybeReg | OperandType.kReg | OperandType.kRegOut =>
        reg <- lift (DecodeRegisterOperand operand_start op_type operand_scale) ;;
        emit (put_string (Register.ToString reg parameter_count)) ;;
        ret range
    | OperandType.kRegOutTriple =>
        let range := range + 1 in
        (* falls through *)
        print_register_range operand_start op_type operand_scale parameter_count range
    | OperandType.kRegOutPair | OperandType.kRegPair =>
        print_register_range operand_start op_type operand_scale parameter_count range
    | OperandType.kNone => lift UNREACHABLE
    end ;;
  (if negb (i =? number_of_operands - 1) then emit (put_string ", ") else ret tt) ;;
  ret range.

(** Lines 93-152: the early return on a debug break, then the operand
    loop. *)
Definition print_operands (bytecode_start : pointer) (parameter_count : Z)
    (prefix_offset : Z) (operand_scale : OperandScale.t) (bytecode : Bytecode)
    : M unit :=
  (* Operands for the debug break are from the original instruction. *)
  if IsDebugBreak bytecode then ret tt
  else
    let number_of_operands := NumberOfOperands bytecode in
    let range := 0 in
    for_range 0 number_of_operands
      (print_operand bytecode_start parameter_count prefix_offset operand_scale
         bytecode number_of_operands) range ;;
    ret tt.

(** [BytecodeDecoder::Decode]; the returned [std::ostream&] is the stream
    the computation runs on. *)
Definition Decode (bytecode_start : pointer) (parameter_count : Z) : M unit :=
  '(prefix_offset, operand_scale, bytecode) <- lift (resolve_prefix bytecode_start) ;;
  (* Prepare to print bytecode and operands as hex digits. *)
  let saved_format := ios.init in                              (* saved_format(nullptr) *)
  let saved_format := ios.copyfmt saved_format saved_format in (* copyfmt(saved_format) *)
  emit (set_fill "0") ;;
  emit (set_flags ios.hex) ;;
  let bytecode_size := Size bytecode operand_scale in
  for_range 0 (prefix_offset + bytecode_size)
    (fun i _ =>
       b <- lift (deref bytecode_start i) ;;
       emit (set_width 2) ;;
       emit (put_uint32 (to_unsigned 32 (byte_to_Z b))) ;;
       emit (put_char " ")) tt ;;
  emit (copyfmt saved_format) ;;
  for_range (prefix_offset + bytecode_size) kBytecodeColumnSize
    (fun _ _ => emit (put_string "   ")) tt ;;
  emit (put_string (ToString bytecode operand_scale)) ;;
  emit (put_string " ") ;;
  print_operands bytecode_start parameter_count prefix_offset operand_scale bytecode.

End BytecodeDecoder.

(** ** The text the disassembler is expected to write *)

(** A byte as two lower-case hexadecimal digits. *)
Definition hex2 (b : byte) : string :=
  String (digit_char false (byte_to_Z b / 16))
    (String (digit_char false (byte_to_Z b mod 16)) "").

Definition hex_group (b : byte) : string := hex2 b ++ " ".

Fixpoint hex_dump (bs : list byte) : string :=
  match bs with
  | [] => ""
  | b :: bs' => hex_group b ++ hex_dump bs'
  end.

(** [n] blank byte columns. *)
Fixpoint padding (n : nat) : string :=
  match n with
  | O => ""
  | S n' => "   " ++ padding n'
  end.

(** A 32-bit value in decimal, with a minus sign when negative. *)
Definition decimal (v : Z) : string :=
  if v <? 0 then "-" ++ numeral 10 false (- v) else numeral 10 false v.

Fixpoint join (sep : string) (ts : list string) : string :=
  match ts with
  | [] => ""
  | [t] => t
  | t :: ts' => t ++ sep ++ join sep ts'
  end.

(** The [n] bytes a pointer designates, and the condition under which all
    of them lie inside the buffer. *)
Definition slice (p : pointer) (n : Z) : list byte :=
  firstn (Z.to_nat n) (skipn (Z.to_nat (pos p)) (base p)).

Definition readable (p : pointer) (n : Z) : Prop :=
  0 <= pos p /\ pos p + n <= Z.of_nat (List.length (base p)).

(** [static_cast<int>(OperandSize)]: the width in bytes. *)
Definition bytes_of (s : OperandSize.t) : Z :=
  match s with
  | OperandSize.kNone => 0
  | OperandSize.kByte => 1
  | OperandSize.kShort => 2
  | OperandSize.kQuad => 4
  end.

Section Expectations.

Context {md : Bytecodes.metadata} {rs : Register.scheme}.
Variable host : endianness.

Import Bytecodes.

(** Where operand [i] of an instruction starts. *)
Definition operand_start (bytecode_start : pointer) (prefix_offset : Z)
    (operand_scale : OperandScale.t) (bytecode : Bytecode) (i : Z) : pointer :=
  ptr_add bytecode_start (prefix_offset + GetOperandOffset bytecode i operand_scale).

(** The caller contract of the three decoders, for the decoder that the
    disassembler hands an operand of type [t] to: the width is not "none",
    the unsigned decoder gets an unsigned type, the signed decoder a type
    that is not unsigned, the register decoder a register type (which it
    passes on to the signed decoder); "none" has no decoder. *)
Definition operand_contract (t : OperandType.t) (operand_scale : OperandScale.t) : bool :=
  match SizeOfOperand t operand_scale with
  | OperandSize.kNone => false
  | _ =>
      match t with
      | OperandType.kRegCount | OperandType.kIdx | OperandType.kRuntimeId
      | OperandType.kIntrinsicId | OperandType.kFlag8 =>
          IsUnsignedOperandType t
      | OperandType.kImm =>
          negb (IsUnsignedOperandType t)
      | OperandType.kMaybeReg | OperandType.kReg | OperandType.kRegOut
      | OperandType.kRegPair | OperandType.kRegOutPair | OperandType.kRegOutTriple =>
          IsRegisterOperandType t && negb (IsUnsignedOperandType t)
      | OperandType.kNone => false
      end
  end.

(** An operand that can be decoded: the contract holds and its bytes are
    inside the buffer. *)
Definition operand_wf (bytecode_start : pointer) (prefix_offset : Z)
    (operand_scale : OperandScale.t) (bytecode : Bytecode) (i : Z) : Prop :=
  let t := GetOperandType bytecode i in
  operand_contract t operand_scale = true /\
  readable (operand_start bytecode_start prefix_offset operand_scale bytecode i)
           (bytes_of (SizeOfOperand t operand_scale)).

(** The text of operand [i] when the loop reaches it with [range] ranges
    already counted, and the count after it. *)
Definition operand_text (bytecode_start : pointer) (parameter_count : Z)
    (prefix_offset : Z) (operand_scale : OperandScale.t) (bytecode : Bytecode)
    (i : Z) (range : Z) : outcome (string * Z) :=
  let t := GetOperandType bytecode i in
  let start := operand_start bytecode_start prefix_offset operand_scale bytecode i in
  let name r := Register.ToString r parameter_count in
  match t with
  | OperandType.kRegCount | OperandType.kFlag8 =>
      v <- DecodeUnsignedOperand host start t operand_scale ;;
      ret ("#" ++ numeral 10 false v, range)
  | OperandType.kIdx | OperandType.kRuntimeId | OperandType.kIntrinsicId =>
      v <- DecodeUnsignedOperand host start t operand_scale ;;
      ret ("[" ++ numeral 10 false v ++ "]", range)
  | OperandType.kImm =>
      v <- DecodeSignedOperand host start t operand_scale ;;
      ret ("[" ++ decimal v ++ "]", range)
  | OperandType.kMaybeReg | OperandType.kReg | OperandType.kRegOut =>
      r <- DecodeRegisterOperand host start t operand_scale ;;
      ret (name r, range)
  | OperandType.kRegPair | OperandType.kRegOutPair =>
      r <- DecodeRegisterOperand host start t operand_scale ;;
      ret (name r ++ "-" ++ name (Register.Register (Register.index r + (range + 1))),
           range + 1)
  | OperandType.kRegOutTriple =>
      r <- DecodeRegisterOperand host start t operand_scale ;;
      ret (name r ++ "-" ++ name (Register.Register (Register.index r + (range + 1 + 1))),
           range + 1 + 1)
  | OperandType.kNone => UNREACHABLE
  end.

(** The textual form of operand [i] by category, for the categories that
    print one value or one register; the register ranges have their own
    statement and are not constrained here. *)
Definition rendered_as (bytecode_start : pointer) (parameter_count : Z)
    (prefix_offset : Z) (operand_scale : OperandScale.t) (bytecode : Bytecode)
    (i : Z) (text : string) : Prop :=
  let t := GetOperandType bytecode i in
  let start := operand_start bytecode_start prefix_offset operand_scale bytecode i in
  match t with
  | OperandType.kRegCount | OperandType.kFlag8 =>
      exists v, DecodeUnsignedOperand host start t operand_scale = Done v /\
                text = "#" ++ numeral 10 false v
  | OperandType.kIdx | OperandType.kRuntimeId | OperandType.kIntrinsicId =>
      exists v, DecodeUnsignedOperand host start t operand_scale = Done v /\
                text = "[" ++ numeral 10 false v ++ "]"
  | OperandType.kImm =>
      exists v, DecodeSignedOperand host start t operand_scale = Done v /\
                text = "[" ++ decimal v ++ "]"
  | OperandType.kMaybeReg | OperandType.kReg | OperandType.kRegOut =>
      exists r, DecodeRegisterOperand host start t operand_scale = Done r /\
                text = Register.ToString r parameter_count
  | OperandType.kRegPair | OperandType.kRegOutPair | OperandType.kRegOutTriple =>
      True
  | OperandType.kNone => False
  end.

(** The texts of the [n] operands from operand [i] on. *)
Fixpoint operand_texts (bytecode_start : pointer) (parameter_count : Z)
    (prefix_offset : Z) (operand_scale : OperandScale.t) (bytecode : Bytecode)
    (n : nat) (i : Z) (range : Z) : outcome (list string) :=
  match n with
  | O => ret []
  | S n' =>
      ' (text, range') <- operand_text bytecode_start parameter_count prefix_offset
                            operand_scale bytecode i range ;;
      texts <- operand_texts bytecode_start parameter_count prefix_offset
                 operand_scale bytecode n' (i + 1) range' ;;
      ret (text :: texts)
  end.

End Expectations.

(** The texts of operands [i], [i+1], ... of an instruction with [n]
    operands, each but operand [n-1] followed by a comma and a blank. *)
Fixpoint separated (texts : list string) (i n : Z) : string :=
  match texts with
  | [] => ""
  | t :: texts' => t ++ (if i =? n - 1 then "" else ", ") ++ separated texts' (i + 1) n
  end.

(** ** Properties of stream computations *)

(** A failure that is not a broken assertion. *)
Definition assertion_free {A} (o : outcome A) : Prop :=
  o <> Fatal DCheckFailed /\ o <> Fatal Unreachable.

Definition never_asserts {A} (c : M A) : Prop :=
  forall os, assertion_free (fst (c os)).

(** Relations between the formats of two streams. *)
Definition any_format (f1 f2 : ios.fmtstate) : Prop := True.

Definition same_fill (f1 f2 : ios.fmtstate) : Prop := ios.fill f1 = ios.fill f2.

Definition same_flags_fill (f1 f2 : ios.fmtstate) : Prop :=
  ios.flags f1 = ios.flags f2 /\ ios.fill f1 = ios.fill f2.

Definition same_layout (f1 f2 : ios.fmtstate) : Prop :=
  ios.flags f1 = ios.flags f2 /\ ios.width f1 = ios.width f2 /\
  ios.fill f1 = ios.fill f2.

(** [uniform R Q c]: run on two streams whose formats are related by [R],
    the computation [c] ends the same way, appends the same text to both,
    and, when it returns, leaves formats related by [Q]. *)
Definition uniform {A} (R Q : ios.fmtstate -> ios.fmtstate -> Prop) (c : M A) : Prop :=
  forall os1 os2, R (fmt os1) (fmt os2) ->
    exists text,
      fst (c os1) = fst (c os2) /\
      contents (snd (c os1)) = contents os1 ++ text /\
      contents (snd (c os2)) = contents os2 ++ text /\
      (forall a, fst (c os1) = Done a -> Q (fmt (snd (c os1))) (fmt (snd (c os2)))).

(** A run that ends in a broken assertion. *)
Definition asserts {A} (o : outcome A) : Prop :=
  o = Fatal DCheckFailed \/ o = Fatal Unreachable.

(** A computation that leaves a stream in the default format when it finds
    it so, however it ends. *)
Definition keeps_default {A} (c : M A) : Prop :=
  forall os, fmt os = ios.init -> fmt (snd (c os)) = ios.init.


(** The cases of the operand switch that call [Register::ToString], the
    only use of [parameter_count]. *)
Definition prints_register (t : OperandType.t) : bool :=
  match t with
  | OperandType.kMaybeReg | OperandType.kReg | OperandType.kRegOut
  | OperandType.kRegOutTriple | OperandType.kRegOutPair | OperandType.kRegPair => true
  | _ => false
  end.


(** ** A sample instruction table

    The real tables are generated in [bytecodes.h]; this small table follows
    their layout (one opcode byte, then the operands back to back, scalable
    operands widened by the prefix) and is used to run the decoder on
    concrete buffers. *)

Module Sample.
Import OperandType.

(** Opcodes [x00] and [x01] are the scaling prefixes. *)
Definition operand_types (bytecode : byte) : list OperandType.t :=
  match bytecode with
  | x02 => []                                          (* LdaZero *)
  | x03 => [kImm]                                      (* LdaSmi *)
  | x04 => [kReg]                                      (* Star *)
  | x05 => [kRuntimeId; kMaybeReg; kRegCount; kRegOutPair] (* CallRuntimeForPair *)
  | x06 => [kRegOutTriple]                             (* ForInPrepare *)
  | x07 => [kReg; kReg; kRegPair; kIdx]                (* ForInNext *)
  | x08 => [kReg]                                      (* DebugBreak1 *)
  | x09 => [kIdx; kFlag8]                              (* CreateClosure *)
  | x0a => [kIntrinsicId; kMaybeReg; kRegCount]        (* InvokeIntrinsic *)
  | x0b => [kRegPair; kRegOutPair]                     (* MovePair *)
  | x0c => [kImm]                                      (* AddSmi *)
  | _ => []
  end.

Definition name (bytecode : byte) : string :=
  match bytecode with
  | x00 => "Wide" | x01 => "ExtraWide"
  | x02 => "LdaZero" | x03 => "LdaSmi" | x04 => "Star"
  | x05 => "CallRuntimeForPair" | x06 => "ForInPrepare" | x07 => "ForInNext"
  | x08 => "DebugBreak1" | x09 => "CreateClosure" | x0a => "InvokeIntrinsic"
  | x0b => "MovePair" | x0c => "AddSmi"
  | _ => "Illegal"
  end.

Definition scaled (operand_scale : OperandScale.t) : OperandSize.t :=
  match operand_scale with
  | OperandScale.kSingle => OperandSize.kByte
  | OperandScale.kDouble => OperandSize.kShort
  | OperandScale.kQuad => OperandSize.kQuad
  end.

Definition size_of_operand (t : OperandType.t) (operand_scale : OperandScale.t)
    : OperandSize.t :=
  match t with
  | kNone => OperandSize.kNone
  | kFlag8 | kIntrinsicId => OperandSize.kByte
  | kRuntimeId => OperandSize.kShort
  | _ => scaled operand_scale
  end.

Definition total (operand_scale : OperandScale.t) (ts : list OperandType.t) : Z :=
  fold_right (fun t acc => bytes_of (size_of_operand t operand_scale) + acc) 0 ts.

#[export] Instance table : Bytecodes.metadata := {
  Bytecodes.Bytecode := byte;
  Bytecodes.FromByte := fun b => b;
  Bytecodes.IsPrefixScalingBytecode :=
    fun b => match b with x00 | x01 => true | _ => false end;
  Bytecodes.PrefixBytecodeToOperandScale :=
    fun b => match b with
             | x00 => OperandScale.kDouble
             | x01 => OperandScale.kQuad
             | _ => OperandScale.kSingle
             end;
  Bytecodes.Size := fun b sc => 1 + total sc (operand_types b);
  Bytecodes.ToString :=
    fun b sc => match sc with
                | OperandScale.kSingle => name b
                | OperandScale.kDouble => name b ++ ".Wide"
                | OperandScale.kQuad => name b ++ ".ExtraWide"
                end;
  Bytecodes.IsDebugBreak := fun b => match b with x08 => true | _ => false end;
  Bytecodes.NumberOfOperands := fun b => Z.of_nat (List.length (operand_types b));
  Bytecodes.GetOperandType :=
    fun b i => if i <? 0 then kNone else nth (Z.to_nat i) (operand_types b) kNone;
  Bytecodes.GetOperandOffset :=
    fun b i sc => 1 + total sc (firstn (Z.to_nat i) (operand_types b));
  Bytecodes.IsRegisterOperandType :=
    fun t => match t with
             | kMaybeReg | kReg | kRegPair | kRegOut | kRegOutPair | kRegOutTriple => true
             | _ => false
             end;
  Bytecodes.IsUnsignedOperandType :=
    fun t => match t with
             | kFlag8 | kIntrinsicId | kIdx | kRegCount | kRuntimeId => true
             | _ => false
             end;
  Bytecodes.SizeOfOperand := size_of_operand
}.

(** Registers are encoded negated; negative indices name parameters. *)
#[export] Instance registers : Register.scheme := {
  Register.FromOperand := fun operand => Register.Register (- operand);
  Register.ToString :=
    fun r parameter_count =>
      if Register.index r <? 0
      then "a" ++ numeral 10 false (Register.index r + parameter_count)
      else "r" ++ numeral 10 false (Register.index r)
}.

Definition at_start (bytes : list byte) : pointer := {| base := bytes; pos := 0 |}.

Definition fresh : ostream := {| fmt := ios.init; contents := "" |}.

(** A stream on which the caller has selected hexadecimal output with a
    star as fill character. *)
Definition starred : ostream :=
  {| fmt := {| ios.flags := Z.lor ios.skipws ios.hex; ios.width := 0;
               ios.precision := 6; ios.fill := "*"%char |};
     contents := "" |}.

End Sample.


(** ** An inconsistent table

    The sample table with one operand too many declared for every opcode:
    the extra operand position has type "none". *)

Module Inconsistent.

Definition table : Bytecodes.metadata := {|
  Bytecodes.Bytecode := byte;
  Bytecodes.FromByte := fun b => b;
  Bytecodes.IsPrefixScalingBytecode := @Bytecodes.IsPrefixScalingBytecode Sample.table;
  Bytecodes.PrefixBytecodeToOperandScale :=
    @Bytecodes.PrefixBytecodeToOperandScale Sample.table;
  Bytecodes.Size := @Bytecodes.Size Sample.table;
  Bytecodes.ToString := @Bytecodes.ToString Sample.table;
  Bytecodes.IsDebugBreak := @Bytecodes.IsDebugBreak Sample.table;
  Bytecodes.NumberOfOperands :=
    fun b => @Bytecodes.NumberOfOperands Sample.table b + 1;
  Bytecodes.GetOperandType := @Bytecodes.GetOperandType Sample.table;
  Bytecodes.GetOperandOffset := @Bytecodes.GetOperandOffset Sample.table;
  Bytecodes.IsRegisterOperandType := @Bytecodes.IsRegisterOperandType Sample.table;
  Bytecodes.IsUnsignedOperandType := @Bytecodes.IsUnsignedOperandType Sample.table;
  Bytecodes.SizeOfOperand := @Bytecodes.SizeOfOperand Sample.table
|}.

End Inconsistent.

(** ** Strings, buffers and insertion under a known format *)

Lemma append_nil_r (s : string) : s ++ "" = s.
Proof. induction s as [|c s IH]; simpl; [reflexivity | now rewrite IH]. Qed.

Lemma append_assoc (s t u : string) : (s ++ t) ++ u = s ++ t ++ u.
Proof. induction s as [|c s IH]; simpl; [reflexivity | now rewrite IH]. Qed.

Lemma length_append (s t : string) :
  String.length (s ++ t) = (String.length s + String.length t)%nat.
Proof. induction s as [|c s IH]; simpl; [reflexivity | now rewrite IH]. Qed.

Lemma byte_to_Z_range (b : byte) : 0 <= byte_to_Z b < 256.
Proof.
  unfold byte_to_Z. pose proof (Byte.to_N_bounded b) as H.
  split; [apply N2Z.is_nonneg | lia].
Qed.

Lemma skipn_cons_nth {A} (l : list A) (n : nat) (x : A) :
  nth_error l n = Some x -> skipn n l = x :: skipn (S n) l.
Proof.
  revert l; induction n as [|n IH]; intros [|y l] H; simpl in H; try discriminate.
  - now inversion H.
  - now apply IH.
Qed.

Lemma deref_inside (p : pointer) (k : Z) :
  0 <= pos p + k < Z.of_nat (List.length (base p)) ->
  exists b, deref p k = Done b /\ nth_error (base p) (Z.to_nat (pos p + k)) = Some b.
Proof.
  intros [Hlo Hhi]. unfold deref.
  destruct (Z.ltb_spec (pos p + k) 0) as [Hneg|_]; [lia|].
  destruct (nth_error (base p) (Z.to_nat (pos p + k))) as [b|] eqn:E.
  - now exists b.
  - apply nth_error_None in E. lia.
Qed.

Lemma deref_readable (p : pointer) (n k : Z) :
  readable p n -> 0 <= k < n -> exists b, deref p k = Done b.
Proof.
  intros [Hlo Hhi] Hk. destruct (deref_inside p k) as [b [Hb _]]; [lia|].
  now exists b.
Qed.

Lemma padded_no_width (f : ios.fmtstate) (sign body : string) :
  ios.width f <= 0 -> padded f sign body = sign ++ body.
Proof.
  intros Hw. unfold padded.
  replace (Z.to_nat (ios.width f - strlen (sign ++ body))) with O
    by (unfold strlen; lia).
  simpl. rewrite append_nil_r.
  destruct (_ =? ios.left); [reflexivity|].
  destruct (_ =? ios.internal); reflexivity.
Qed.

(** Insertion into a stream whose format is the default one. *)
Lemma num_text_default (is_signed : bool) (v : Z) :
  num_text ios.init is_signed v =
  if is_signed && (v <? 0) then ("-", numeral 10 false (- v))
  else ("", numeral 10 false v).
Proof.
  unfold num_text.
  change (Z.land (ios.flags ios.init) ios.basefield =? ios.hex) with false.
  change (Z.land (ios.flags ios.init) ios.basefield =? ios.oct) with false.
  change (ios.has ios.init ios.uppercase) with false.
  change (ios.has ios.init ios.showpos) with false.
  cbv iota beta. destruct is_signed; reflexivity.
Qed.

Lemma put_string_default (text s : string) :
  put_string s {| fmt := ios.init; contents := text |} =
  {| fmt := ios.init; contents := text ++ s |}.
Proof.
  unfold put_string, insert; simpl.
  now rewrite padded_no_width by (simpl; lia).
Qed.

Lemma put_uint32_default (text : string) (v : Z) :
  put_uint32 v {| fmt := ios.init; contents := text |} =
  {| fmt := ios.init; contents := text ++ numeral 10 false v |}.
Proof.
  unfold put_uint32, insert; simpl fmt. rewrite num_text_default; simpl.
  now rewrite padded_no_width by (simpl; lia).
Qed.

Lemma put_int32_default (text : string) (v : Z) :
  put_int32 v {| fmt := ios.init; contents := text |} =
  {| fmt := ios.init; contents := text ++ decimal v |}.
Proof.
  unfold put_int32, insert, decimal; simpl fmt. rewrite num_text_default; simpl andb.
  destruct (v <? 0); simpl; now rewrite padded_no_width by (simpl; lia).
Qed.

(** One round of the byte loop, on a stream prepared with [fill('0')] and
    [flags(hex)]: exactly the two digits of the byte and a blank. *)
Lemma hex_digits_of_byte (pr : Z) (b : byte) :
  let f := {| ios.flags := ios.hex; ios.width := 2; ios.precision := pr;
              ios.fill := "0"%char |} in
  padded f (fst (num_text f false (to_unsigned 32 (byte_to_Z b))))
           (snd (num_text f false (to_unsigned 32 (byte_to_Z b)))) = hex2 b.
Proof. destruct b; vm_compute; reflexivity. Qed.

Lemma put_hex_group (os : ostream) (b : byte) :
  ios.flags (fmt os) = ios.hex -> ios.fill (fmt os) = "0"%char ->
  put_char " " (put_uint32 (to_unsigned 32 (byte_to_Z b)) (set_width 2 os)) =
  {| fmt := {| ios.flags := ios.hex; ios.width := 0;
               ios.precision := ios.precision (fmt os); ios.fill := "0"%char |};
     contents := contents os ++ hex_group b |}.
Proof.
  destruct os as [[fl w pr fi] text]; simpl; intros -> ->.
  pose proof (hex_digits_of_byte pr b) as H; cbv zeta in H.
  unfold put_char, put_uint32, set_width; simpl fmt.
  destruct (num_text _ false _) as [sign body]; simpl in H.
  unfold insert; simpl. rewrite H.
  rewrite padded_no_width by (simpl; lia).
  unfold hex_group. now rewrite append_assoc.
Qed.

Example numeral_largest : numeral 10 false 4294967295 = "4294967295".
Proof. reflexivity. Qed.

Example numeral_hex : numeral 16 false 48879 = "beef".
Proof. reflexivity. Qed.

Example decimal_negative : decimal (-2147483648) = "-2147483648".
Proof. reflexivity. Qed.

Example hex_dump_bytes : hex_dump [x00; x0c; xff] = "00 0c ff ".
Proof. reflexivity. Qed.

(** ** Running the monad *)

Tactic Notation "run_outcome" :=
  cbn [DCHECK UNREACHABLE bind ret outcome_monad negb].
Tactic Notation "run_outcome" "in" hyp(H) :=
  cbn [DCHECK UNREACHABLE bind ret outcome_monad negb] in H.

Lemma Done_inj {A} (a b : A) : Done a = Done b -> a = b.
Proof. congruence. Qed.

Lemma run_bind {A B} (c : M A) (k : A -> M B) (os : ostream) :
  bind c k os =
  match c os with
  | (Done a, os') => k a os'
  | (Fatal f, os') => (Fatal f, os')
  end.
Proof. reflexivity. Qed.

Lemma run_emit {B} (f : ostream -> ostream) (k : unit -> M B) (os : ostream) :
  bind (emit f) k os = k tt (f os).
Proof. reflexivity. Qed.

Lemma run_emit_end (f : ostream -> ostream) (os : ostream) :
  emit f os = (Done tt, f os).
Proof. reflexivity. Qed.

Lemma run_lift_done {A B} (o : outcome A) (a : A) (k : A -> M B) (os : ostream) :
  o = Done a -> bind (lift o) k os = k a os.
Proof. now intros ->. Qed.

(** ** The prologue of [Decode]: bytes, padding, mnemonic *)

Section Prologue.

Context {md : Bytecodes.metadata} {rs : Register.scheme}.
Variable host : endianness.

Import Bytecodes.

(** The byte loop of lines 81-83 from round [i] on, with the bytes in the
    buffer. *)
Lemma hex_loop (p : pointer) (k : nat) :
  forall (i : Z) (os : ostream),
    0 <= pos p + i ->
    ((0 < k)%nat -> pos p + i + Z.of_nat k <= Z.of_nat (List.length (base p))) ->
    ios.flags (fmt os) = ios.hex -> ios.fill (fmt os) = "0"%char ->
    exists w,
      for_fold k i
        (fun i _ =>
           b <- lift (deref p i) ;;
           emit (set_width 2) ;;
           emit (put_uint32 (to_unsigned 32 (byte_to_Z b))) ;;
           emit (put_char " ")) tt os =
      (Done tt,
       {| fmt := {| ios.flags := ios.hex; ios.width := w;
                    ios.precision := ios.precision (fmt os); ios.fill := "0"%char |};
          contents := contents os
                      ++ hex_dump (firstn k (skipn (Z.to_nat (pos p + i)) (base p))) |}).
Proof.
  induction k as [|k IH]; intros i os Hlo Hhi Hfl Hfi.
  - exists (ios.width (fmt os)). destruct os as [[fl w pr fi] text]; simpl in *.
    subst. now rewrite append_nil_r.
  - destruct (deref_inside p i) as [b [Hb Hnth]]; [lia|].
    cbn [for_fold]. rewrite run_bind, (run_lift_done _ b) by exact Hb.
    rewrite !run_emit, run_emit_end, put_hex_group by assumption.
    destruct (IH (i + 1)
                {| fmt := {| ios.flags := ios.hex; ios.width := 0;
                             ios.precision := ios.precision (fmt os);
                             ios.fill := "0"%char |};
                   contents := contents os ++ hex_group b |})
      as [w Hw]; try reflexivity; try lia.
    exists w. rewrite Hw. simpl fmt; simpl contents; simpl ios.precision.
    rewrite (skipn_cons_nth _ _ _ Hnth).
    replace (Z.to_nat (pos p + (i + 1))) with (S (Z.to_nat (pos p + i))) by lia.
    simpl firstn; simpl hex_dump. now rewrite append_assoc.
Qed.

(** The padding loop of lines 87-89 on a stream in the default format. *)
Lemma padding_loop (k : nat) :
  forall (i : Z) (text : string),
    for_fold k i (fun _ _ => emit (put_string "   ")) tt
      {| fmt := ios.init; contents := text |} =
    (Done tt, {| fmt := ios.init; contents := text ++ padding k |}).
Proof.
  induction k as [|k IH]; intros i text.
  - simpl. now rewrite append_nil_r.
  - cbn [for_fold]. rewrite run_emit, put_string_default, IH.
    simpl padding. now rewrite append_assoc.
Qed.

(** What [Decode] has written, and the format it has left, when it
    reaches the operands. *)
Lemma Decode_prologue (p : pointer) (parameter_count : Z) (os : ostream)
    (prefix_offset : Z) (operand_scale : OperandScale.t) (bytecode : Bytecode) :
  resolve_prefix p = Done (prefix_offset, operand_scale, bytecode) ->
  readable p (prefix_offset + Size bytecode operand_scale) ->
  Decode host p parameter_count os =
  print_operands host p parameter_count prefix_offset operand_scale bytecode
    {| fmt := ios.init;
       contents :=
         contents os
         ++ hex_dump (slice p (prefix_offset + Size bytecode operand_scale))
         ++ padding (Z.to_nat (kBytecodeColumnSize
                               - (prefix_offset + Size bytecode operand_scale)))
         ++ ToString bytecode operand_scale ++ " " |}.
Proof.
  intros Hpre [Hlo Hhi]. unfold Decode.
  rewrite (run_lift_done _ _ _ _ Hpre). cbv zeta. rewrite !run_emit.
  unfold for_range at 1. rewrite run_bind.
  destruct (hex_loop p (Z.to_nat (prefix_offset + Size bytecode operand_scale - 0)) 0
              (set_flags ios.hex (set_fill "0" os))) as [w Hw];
    try reflexivity; try lia.
  rewrite Hw. rewrite run_emit. unfold for_range. rewrite run_bind.
  unfold copyfmt at 1. simpl fmt; simpl contents.
  change (ios.copyfmt _ (ios.copyfmt ios.init ios.init)) with ios.init.
  rewrite padding_loop, !run_emit, !put_string_default.
  rewrite Z.sub_0_r, Z.add_0_r. unfold slice.
  now rewrite !append_assoc.
Qed.

End Prologue.

(** ** The decoders on readable bytes *)

Section Decoders.

Context {md : Bytecodes.metadata} {rs : Register.scheme}.
Variable host : endianness.

Import Bytecodes.

Lemma ReadUnalignedUInt16_readable (p : pointer) :
  readable p 2 ->
  exists b0 b1,
    deref p 0 = Done b0 /\ deref p 1 = Done b1 /\
    ReadUnalignedUInt16 host p =
    Done match host with
         | LittleEndian => byte_to_Z b0 + 2 ^ 8 * byte_to_Z b1
         | BigEndian => byte_to_Z b1 + 2 ^ 8 * byte_to_Z b0
         end.
Proof.
  intros H.
  destruct (deref_readable p 2 0 H) as [b0 H0]; [lia|].
  destruct (deref_readable p 2 1 H) as [b1 H1]; [lia|].
  exists b0, b1. unfold ReadUnalignedUInt16. now rewrite H0, H1.
Qed.

Lemma ReadUnalignedUInt32_readable (p : pointer) :
  readable p 4 ->
  exists b0 b1 b2 b3,
    deref p 0 = Done b0 /\ deref p 1 = Done b1 /\
    deref p 2 = Done b2 /\ deref p 3 = Done b3 /\
    ReadUnalignedUInt32 host p =
    Done match host with
         | LittleEndian =>
             byte_to_Z b0 + 2 ^ 8 * byte_to_Z b1 + 2 ^ 16 * byte_to_Z b2
             + 2 ^ 24 * byte_to_Z b3
         | BigEndian =>
             byte_to_Z b3 + 2 ^ 8 * byte_to_Z b2 + 2 ^ 16 * byte_to_Z b1
             + 2 ^ 24 * byte_to_Z b0
         end.
Proof.
  intros H.
  destruct (deref_readable p 4 0 H) as [b0 H0]; [lia|].
  destruct (deref_readable p 4 1 H) as [b1 H1]; [lia|].
  destruct (deref_readable p 4 2 H) as [b2 H2]; [lia|].
  destruct (deref_readable p 4 3 H) as [b3 H3]; [lia|].
  exists b0, b1, b2, b3. unfold ReadUnalignedUInt32. now rewrite H0, H1, H2, H3.
Qed.

Lemma ReadUnalignedUInt16_range (p : pointer) (v : Z) :
  ReadUnalignedUInt16 host p = Done v -> 0 <= v < 2 ^ 16.
Proof.
  unfold ReadUnalignedUInt16.
  destruct (deref p 0) as [b0|]; [|discriminate].
  destruct (deref p 1) as [b1|]; [|discriminate].
  pose proof (byte_to_Z_range b0). pose proof (byte_to_Z_range b1).
  cbn [bind ret outcome_monad].
  change (2 ^ 8) with 256; change (2 ^ 16) with 65536;
    change (2 ^ 24) with 16777216; change (2 ^ 32) with 4294967296.
  destruct host; intros E; apply Done_inj in E; lia.
Qed.

Lemma ReadUnalignedUInt32_range (p : pointer) (v : Z) :
  ReadUnalignedUInt32 host p = Done v -> 0 <= v < 2 ^ 32.
Proof.
  unfold ReadUnalignedUInt32.
  destruct (deref p 0) as [b0|]; [|discriminate].
  destruct (deref p 1) as [b1|]; [|discriminate].
  destruct (deref p 2) as [b2|]; [|discriminate].
  destruct (deref p 3) as [b3|]; [|discriminate].
  pose proof (byte_to_Z_range b0). pose proof (byte_to_Z_range b1).
  pose proof (byte_to_Z_range b2). pose proof (byte_to_Z_range b3).
  cbn [bind ret outcome_monad].
  change (2 ^ 8) with 256; change (2 ^ 16) with 65536;
    change (2 ^ 24) with 16777216; change (2 ^ 32) with 4294967296.
  destruct host; intros E; apply Done_inj in E; lia.
Qed.

Lemma DecodeUnsignedOperand_done (p : pointer) (t : OperandType.t)
    (operand_scale : OperandScale.t) :
  IsUnsignedOperandType t = true ->
  SizeOfOperand t operand_scale <> OperandSize.kNone ->
  readable p (bytes_of (SizeOfOperand t operand_scale)) ->
  exists v, DecodeUnsignedOperand host p t operand_scale = Done v.
Proof.
  intros Hu Hn Hr. unfold DecodeUnsignedOperand. rewrite Hu. run_outcome.
  destruct (SizeOfOperand t operand_scale); cbn in Hr.
  - contradiction.
  - destruct (deref_readable p 1 0 Hr) as [b Hb]; [lia|]. rewrite Hb. run_outcome. eauto.
  - destruct (ReadUnalignedUInt16_readable p Hr) as (b0 & b1 & _ & _ & ->). eauto.
  - destruct (ReadUnalignedUInt32_readable p Hr) as (b0 & b1 & b2 & b3 & _ & _ & _ & _ & ->).
    eauto.
Qed.

Lemma DecodeSignedOperand_done (p : pointer) (t : OperandType.t)
    (operand_scale : OperandScale.t) :
  IsUnsignedOperandType t = false ->
  SizeOfOperand t operand_scale <> OperandSize.kNone ->
  readable p (bytes_of (SizeOfOperand t operand_scale)) ->
  exists v, DecodeSignedOperand host p t operand_scale = Done v.
Proof.
  intros Hu Hn Hr. unfold DecodeSignedOperand. rewrite Hu. run_outcome.
  destruct (SizeOfOperand t operand_scale); cbn in Hr.
  - contradiction.
  - destruct (deref_readable p 1 0 Hr) as [b Hb]; [lia|]. rewrite Hb. run_outcome. eauto.
  - destruct (ReadUnalignedUInt16_readable p Hr) as (b0 & b1 & _ & _ & ->). run_outcome. eauto.
  - destruct (ReadUnalignedUInt32_readable p Hr) as (b0 & b1 & b2 & b3 & _ & _ & _ & _ & ->).
    run_outcome. eauto.
Qed.

Lemma DecodeRegisterOperand_done (p : pointer) (t : OperandType.t)
    (operand_scale : OperandScale.t) :
  IsRegisterOperandType t = true ->
  IsUnsignedOperandType t = false ->
  SizeOfOperand t operand_scale <> OperandSize.kNone ->
  readable p (bytes_of (SizeOfOperand t operand_scale)) ->
  exists r, DecodeRegisterOperand host p t operand_scale = Done r.
Proof.
  intros Hreg Hu Hn Hr. unfold DecodeRegisterOperand. rewrite Hreg. run_outcome.
  destruct (DecodeSignedOperand_done p t operand_scale Hu Hn Hr) as [v ->].
  cbn. eauto.
Qed.

End Decoders.

(** ** The operand loop on a stream in the default format *)

Ltac run_stream :=
  repeat (progress (cbn [bind ret M_monad emit lift negb];
                    rewrite ?put_string_default, ?put_uint32_default,
                            ?put_int32_default)).

Section Operands.

Context {md : Bytecodes.metadata} {rs : Register.scheme}.
Variable host : endianness.
Variables (p : pointer) (parameter_count prefix_offset : Z).
Variables (operand_scale : OperandScale.t) (bytecode : Bytecodes.Bytecode).

Import Bytecodes.

Lemma print_operand_text (n i range range' : Z) (s text : string) :
  operand_text host p parameter_count prefix_offset operand_scale bytecode i range
    = Done (s, range') ->
  print_operand host p parameter_count prefix_offset operand_scale bytecode n i range
    {| fmt := ios.init; contents := text |} =
  (Done range',
   {| fmt := ios.init;
      contents := text ++ s ++ (if i =? n - 1 then "" else ", ") |}).
Proof.
  unfold operand_text, print_operand, print_register_range, operand_start.
  intros H.
  destruct (GetOperandType bytecode i);
    try discriminate H;
    match type of H with
    | context [DecodeUnsignedOperand ?h ?q ?t ?sc] =>
        destruct (DecodeUnsignedOperand h q t sc) as [v|]
    | context [DecodeSignedOperand ?h ?q ?t ?sc] =>
        destruct (DecodeSignedOperand h q t sc) as [v|]
    | context [DecodeRegisterOperand ?h ?q ?t ?sc] =>
        destruct (DecodeRegisterOperand h q t sc) as [v|]
    end;
    run_outcome in H; try discriminate H;
    apply Done_inj in H; injection H as Hs Hr; subst s range';
    destruct (i =? n - 1); run_stream; f_equal; f_equal;
    repeat (progress (rewrite ?append_assoc, ?append_nil_r; cbn [append]));
    reflexivity.
Qed.

(** The pair and triple block with [range] ranges counted before it: the
    last register is [range + 1] after the first. *)
Lemma print_register_range_text (start : pointer) (t : OperandType.t)
    (range : Z) (first_reg : Register.t) (text : string) :
  DecodeRegisterOperand host start t operand_scale = Done first_reg ->
  print_register_range host start t operand_scale parameter_count range
    {| fmt := ios.init; contents := text |} =
  (Done (range + 1),
   {| fmt := ios.init;
      contents :=
        text ++ Register.ToString first_reg parameter_count ++ "-"
        ++ Register.ToString
             (Register.Register (Register.index first_reg + (range + 1)))
             parameter_count |}).
Proof.
  intros H. unfold print_register_range. rewrite H. run_stream.
  now rewrite !append_assoc.
Qed.

Lemma operand_loop (n : Z) (k : nat) :
  forall (i range : Z) (text : string) (texts : list string),
    operand_texts host p parameter_count prefix_offset operand_scale bytecode k i range
      = Done texts ->
    exists range',
      for_fold k i
        (print_operand host p parameter_count prefix_offset operand_scale bytecode n)
        range {| fmt := ios.init; contents := text |} =
      (Done range',
       {| fmt := ios.init; contents := text ++ separated texts i n |}).
Proof.
  induction k as [|k IH]; intros i range text texts H; cbn [operand_texts] in H.
  - apply Done_inj in H; subst texts. exists range. simpl.
    now rewrite append_nil_r.
  - destruct (operand_text host p parameter_count prefix_offset operand_scale
                bytecode i range) as [[s range1]|] eqn:E;
      run_outcome in H; [|discriminate H].
    destruct (operand_texts host p parameter_count prefix_offset operand_scale
                bytecode k (i + 1) range1) as [rest|] eqn:E';
      run_outcome in H; [|discriminate H].
    apply Done_inj in H; subst texts.
    destruct (IH (i + 1) range1 (text ++ s ++ (if i =? n - 1 then "" else ", "))
                rest E') as [range' Hloop].
    exists range'. cbn [for_fold]. rewrite run_bind.
    rewrite (print_operand_text n i range range1 s text E), Hloop.
    cbn [separated]. now rewrite !append_assoc.
Qed.

Lemma length_operand_texts (k : nat) :
  forall (i range : Z) (texts : list string),
    operand_texts host p parameter_count prefix_offset operand_scale bytecode k i range
      = Done texts ->
    List.length texts = k.
Proof.
  induction k as [|k IH]; intros i range texts H; cbn [operand_texts] in H.
  - apply Done_inj in H. now subst.
  - destruct (operand_text _ _ _ _ _ _ _ _) as [[s range1]|];
      run_outcome in H; [|discriminate H].
    destruct (operand_texts _ _ _ _ _ _ _ _ _) as [rest|] eqn:E';
      run_outcome in H; [|discriminate H].
    apply Done_inj in H; subst texts. simpl. f_equal. eauto.
Qed.

End Operands.

Lemma separated_join (texts : list string) :
  forall i n, List.length texts = Z.to_nat (n - i) ->
              separated texts i n = join ", " texts.
Proof.
  induction texts as [|t texts IH]; intros i n H; [reflexivity|].
  cbn [separated]. destruct texts as [|t' texts].
  - simpl in H. replace (i =? n - 1) with true by (symmetry; apply Z.eqb_eq; lia).
    simpl. now rewrite append_nil_r.
  - replace (i =? n - 1) with false
      by (symmetry; apply Z.eqb_neq; cbn [List.length] in H; lia).
    rewrite (IH (i + 1) n) by (cbn [List.length] in *; lia). reflexivity.
Qed.

(** ** Two runs side by side *)

Section Uniform.

Lemma uniform_weaken {A} (R R' Q Q' : ios.fmtstate -> ios.fmtstate -> Prop) (c : M A) :
  (forall f1 f2, R' f1 f2 -> R f1 f2) ->
  (forall f1 f2, Q f1 f2 -> Q' f1 f2) ->
  uniform R Q c -> uniform R' Q' c.
Proof.
  intros HR HQ Hc os1 os2 H.
  destruct (Hc os1 os2 (HR _ _ H)) as (t & Hfst & H1 & H2 & Hpost).
  exists t. repeat split; eauto.
Qed.

Lemma uniform_ret {A} (R : ios.fmtstate -> ios.fmtstate -> Prop) (a : A) :
  uniform R R (ret a).
Proof.
  intros os1 os2 H. exists "". simpl. rewrite !append_nil_r. auto.
Qed.

Lemma uniform_lift {A} (R : ios.fmtstate -> ios.fmtstate -> Prop) (o : outcome A) :
  uniform R R (lift o).
Proof.
  intros os1 os2 H. exists "". simpl. rewrite !append_nil_r. auto.
Qed.

Lemma uniform_bind {A B} (R Q S : ios.fmtstate -> ios.fmtstate -> Prop) (c : M A) (k : A -> M B) :
  uniform R Q c -> (forall a, uniform Q S (k a)) -> uniform R S (bind c k).
Proof.
  intros Hc Hk os1 os2 HR.
  destruct (Hc os1 os2 HR) as (t & Hfst & H1 & H2 & HQ).
  rewrite !run_bind.
  destruct (c os1) as [o1 os1'], (c os2) as [o2 os2']; simpl in *. subst o2.
  destruct o1 as [a|f].
  - destruct (Hk a os1' os2' (HQ a eq_refl)) as (t' & Hfst' & H1' & H2' & HS).
    exists (t ++ t'). rewrite H1', H2', H1, H2, !append_assoc. auto.
  - exists t. simpl. repeat split; auto. intros a Ha; discriminate.
Qed.

Lemma uniform_for_fold {S} (R : ios.fmtstate -> ios.fmtstate -> Prop)
    (body : Z -> S -> M S) (k : nat) :
  (forall i s, uniform R R (body i s)) ->
  forall i s, uniform R R (for_fold k i body s).
Proof.
  intros Hbody. induction k as [|k IH]; intros i s; cbn [for_fold].
  - apply uniform_ret.
  - eapply uniform_bind; [apply Hbody | intros s'; apply IH].
Qed.

(** The stream mutators. *)
Lemma uniform_emit (R Q : ios.fmtstate -> ios.fmtstate -> Prop) (g : ostream -> ostream) :
  (forall os1 os2, R (fmt os1) (fmt os2) ->
     exists t, contents (g os1) = contents os1 ++ t /\
               contents (g os2) = contents os2 ++ t /\
               Q (fmt (g os1)) (fmt (g os2))) ->
  uniform R Q (emit g).
Proof.
  intros Hg os1 os2 H. destruct (Hg os1 os2 H) as (t & H1 & H2 & HQ).
  exists t. simpl. auto.
Qed.

Lemma uniform_set_fill (c : ascii) : uniform any_format same_fill (emit (set_fill c)).
Proof.
  apply uniform_emit. intros os1 os2 _. exists ""; simpl.
  rewrite !append_nil_r. unfold same_fill; simpl. auto.
Qed.

Lemma uniform_set_flags (f : Z) :
  uniform same_fill same_flags_fill (emit (set_flags f)).
Proof.
  apply uniform_emit. intros os1 os2 H. exists ""; simpl.
  rewrite !append_nil_r. unfold same_flags_fill; simpl. auto.
Qed.

Lemma uniform_set_width (n : Z) :
  uniform same_flags_fill same_layout (emit (set_width n)).
Proof.
  apply uniform_emit. intros os1 os2 [Hfl Hfi]. exists ""; simpl.
  rewrite !append_nil_r. unfold same_layout; simpl. auto.
Qed.

Lemma uniform_copyfmt (rhs : ios.fmtstate) :
  uniform any_format same_layout (emit (copyfmt rhs)).
Proof.
  apply uniform_emit. intros os1 os2 _. exists ""; simpl.
  rewrite !append_nil_r. unfold same_layout; simpl. auto.
Qed.

Lemma padded_same_layout (f1 f2 : ios.fmtstate) (sign body : string) :
  same_layout f1 f2 -> padded f1 sign body = padded f2 sign body.
Proof. intros (Hfl & Hw & Hfi). unfold padded. now rewrite Hfl, Hw, Hfi. Qed.

Lemma num_text_same_layout (f1 f2 : ios.fmtstate) (is_signed : bool) (v : Z) :
  same_layout f1 f2 -> num_text f1 is_signed v = num_text f2 is_signed v.
Proof. intros (Hfl & _ & _). unfold num_text, ios.has. now rewrite Hfl. Qed.

Lemma uniform_insert (sign body : string) :
  uniform same_layout same_layout (emit (insert sign body)).
Proof.
  apply uniform_emit. intros os1 os2 H.
  exists (padded (fmt os1) sign body). unfold insert; simpl.
  rewrite (padded_same_layout _ _ sign body H).
  destruct H as (Hfl & Hw & Hfi). unfold same_layout; simpl. auto.
Qed.

Lemma uniform_put_string (s : string) :
  uniform same_layout same_layout (emit (put_string s)).
Proof. apply uniform_insert. Qed.

Lemma uniform_put_char (c : ascii) :
  uniform same_layout same_layout (emit (put_char c)).
Proof. apply uniform_insert. Qed.

Lemma uniform_put_uint32 (v : Z) :
  uniform same_layout same_layout (emit (put_uint32 v)).
Proof.
  intros os1 os2 H. unfold put_uint32, emit.
  rewrite (num_text_same_layout _ _ false v H).
  destruct (num_text (fmt os2) false v) as [sign body].
  exact (uniform_insert sign body os1 os2 H).
Qed.

Lemma uniform_put_int32 (v : Z) :
  uniform same_layout same_layout (emit (put_int32 v)).
Proof.
  intros os1 os2 H. unfold put_int32, emit.
  rewrite (num_text_same_layout _ _ true v H).
  destruct (num_text (fmt os2) true v) as [sign body].
  exact (uniform_insert sign body os1 os2 H).
Qed.

Lemma same_layout_flags_fill (f1 f2 : ios.fmtstate) :
  same_layout f1 f2 -> same_flags_fill f1 f2.
Proof. intros (Hfl & _ & Hfi). now split. Qed.

End Uniform.

Ltac uniform_step :=
  first [ apply uniform_ret
        | apply uniform_lift
        | apply uniform_put_string
        | apply uniform_put_char
        | apply uniform_put_uint32
        | apply uniform_put_int32
        | eapply uniform_bind; [|intros ?] ].

Section UniformDecode.

Context {md : Bytecodes.metadata} {rs : Register.scheme}.
Variable host : endianness.

Import Bytecodes.

Lemma uniform_print_operand (p : pointer) (parameter_count prefix_offset : Z)
    (operand_scale : OperandScale.t) (bytecode : Bytecode) (n i range : Z) :
  uniform same_layout same_layout
    (print_operand host p parameter_count prefix_offset operand_scale bytecode
       n i range).
Proof.
  unfold print_operand, print_register_range.
  destruct (GetOperandType bytecode i); destruct (negb (i =? n - 1));
    repeat uniform_step.
Qed.

Lemma uniform_print_operands (p : pointer) (parameter_count prefix_offset : Z)
    (operand_scale : OperandScale.t) (bytecode : Bytecode) :
  uniform same_layout same_layout
    (print_operands host p parameter_count prefix_offset operand_scale bytecode).
Proof.
  unfold print_operands, for_range. destruct (IsDebugBreak bytecode).
  - apply uniform_ret.
  - eapply uniform_bind; [|intros ?; apply uniform_ret].
    apply uniform_for_fold. intros i s. apply uniform_print_operand.
Qed.

Lemma uniform_Decode (p : pointer) (parameter_count : Z) :
  uniform any_format same_layout (Decode host p parameter_count).
Proof.
  unfold Decode, for_range.
  eapply uniform_bind; [apply uniform_lift | intros [[prefix_offset operand_scale] bytecode]].
  eapply uniform_bind; [apply uniform_set_fill | intros _].
  eapply uniform_bind; [apply uniform_set_flags | intros _].
  eapply uniform_bind.
  { apply uniform_for_fold. intros i s.
    eapply uniform_bind; [apply uniform_lift | intros b].
    eapply uniform_bind; [apply uniform_set_width | intros _].
    eapply uniform_weaken with (R := same_layout) (Q := same_layout);
      [auto | apply same_layout_flags_fill |].
    repeat uniform_step. }
  intros _.
  eapply uniform_bind.
  { eapply uniform_weaken with (R := any_format) (Q := same_layout);
      [unfold any_format; auto | intros f1 f2 H; exact H | apply uniform_copyfmt]. }
  intros _.
  eapply uniform_bind.
  { apply uniform_for_fold. intros i s. apply uniform_put_string. }
  intros _. repeat uniform_step. apply uniform_print_operands.
Qed.

(** Whatever [Decode] does to a stream, it only adds text at the end. *)
Lemma print_operands_appends (p : pointer) (parameter_count prefix_offset : Z)
    (operand_scale : OperandScale.t) (bytecode : Bytecode) (os : ostream) :
  exists rest,
    contents (snd (print_operands host p parameter_count prefix_offset
                     operand_scale bytecode os)) = contents os ++ rest.
Proof.
  destruct (uniform_print_operands p parameter_count prefix_offset operand_scale
              bytecode os os) as (t & _ & H & _).
  - unfold same_layout; auto.
  - now exists t.
Qed.

End UniformDecode.

(** ** Assertions *)

Lemma assertion_free_done {A} (a : A) : assertion_free (Done a).
Proof. split; discriminate. Qed.

Lemma assertion_free_out_of_bounds {A} : assertion_free (@Fatal A OutOfBounds).
Proof. split; discriminate. Qed.

Lemma assertion_free_bind {A B} (c : outcome A) (k : A -> outcome B) :
  assertion_free c -> (forall a, assertion_free (k a)) -> assertion_free (bind c k).
Proof.
  intros Hc Hk. destruct c as [a|f]; run_outcome; [apply Hk|].
  destruct Hc as [H1 H2]. split; intros E; [apply H1 | apply H2]; congruence.
Qed.

Lemma assertion_free_deref (p : pointer) (k : Z) : assertion_free (deref p k).
Proof.
  unfold deref. destruct (_ <? 0); [apply assertion_free_out_of_bounds|].
  destruct (nth_error _ _);
    [apply assertion_free_done | apply assertion_free_out_of_bounds].
Qed.

Lemma assertion_free_uint16 (host : endianness) (p : pointer) :
  assertion_free (ReadUnalignedUInt16 host p).
Proof.
  unfold ReadUnalignedUInt16.
  repeat (apply assertion_free_bind; [apply assertion_free_deref | intros ?]).
  apply assertion_free_done.
Qed.

Lemma assertion_free_uint32 (host : endianness) (p : pointer) :
  assertion_free (ReadUnalignedUInt32 host p).
Proof.
  unfold ReadUnalignedUInt32.
  repeat (apply assertion_free_bind; [apply assertion_free_deref | intros ?]).
  apply assertion_free_done.
Qed.

Lemma never_asserts_ret {A} (a : A) : never_asserts (ret a).
Proof. intros os. apply assertion_free_done. Qed.

Lemma never_asserts_emit (g : ostream -> ostream) : never_asserts (emit g).
Proof. intros os. apply assertion_free_done. Qed.

Lemma never_asserts_lift {A} (o : outcome A) :
  assertion_free o -> never_asserts (lift o).
Proof. intros H os. exact H. Qed.

Lemma never_asserts_bind {A B} (c : M A) (k : A -> M B) :
  never_asserts c -> (forall a, never_asserts (k a)) -> never_asserts (bind c k).
Proof.
  intros Hc Hk os. rewrite run_bind. specialize (Hc os).
  destruct (c os) as [[a|f] os']; simpl in *; [apply Hk|].
  destruct Hc as [H1 H2]. split; intros E; [apply H1 | apply H2]; congruence.
Qed.

Lemma never_asserts_for_fold {S} (body : Z -> S -> M S) (k : nat) :
  forall i s,
    (forall j s', i <= j < i + Z.of_nat k -> never_asserts (body j s')) ->
    never_asserts (for_fold k i body s).
Proof.
  induction k as [|k IH]; intros i s Hbody; cbn [for_fold].
  - apply never_asserts_ret.
  - apply never_asserts_bind; [apply Hbody; lia|].
    intros s'. apply IH. intros j s'' Hj. apply Hbody. lia.
Qed.

Section Assertions.

Context {md : Bytecodes.metadata} {rs : Register.scheme}.
Variable host : endianness.

Import Bytecodes.

Lemma DecodeSignedOperand_asserts (p : pointer) (t : OperandType.t)
    (operand_scale : OperandScale.t) :
  IsUnsignedOperandType t = false ->
  SizeOfOperand t operand_scale <> OperandSize.kNone ->
  assertion_free (DecodeSignedOperand host p t operand_scale).
Proof.
  intros Hu Hn. unfold DecodeSignedOperand. rewrite Hu. run_outcome.
  destruct (SizeOfOperand t operand_scale); [contradiction | | |];
    apply assertion_free_bind;
    try (intros ?; apply assertion_free_done);
    auto using assertion_free_deref, assertion_free_uint16, assertion_free_uint32.
Qed.

Lemma DecodeUnsignedOperand_asserts (p : pointer) (t : OperandType.t)
    (operand_scale : OperandScale.t) :
  IsUnsignedOperandType t = true ->
  SizeOfOperand t operand_scale <> OperandSize.kNone ->
  assertion_free (DecodeUnsignedOperand host p t operand_scale).
Proof.
  intros Hu Hn. unfold DecodeUnsignedOperand. rewrite Hu. run_outcome.
  destruct (SizeOfOperand t operand_scale); [contradiction | | |];
    auto using assertion_free_uint16, assertion_free_uint32.
  apply assertion_free_bind;
    [apply assertion_free_deref | intros ?; apply assertion_free_done].
Qed.

Lemma DecodeRegisterOperand_asserts (p : pointer) (t : OperandType.t)
    (operand_scale : OperandScale.t) :
  IsRegisterOperandType t = true ->
  IsUnsignedOperandType t = false ->
  SizeOfOperand t operand_scale <> OperandSize.kNone ->
  assertion_free (DecodeRegisterOperand host p t operand_scale).
Proof.
  intros Hreg Hu Hn. unfold DecodeRegisterOperand. rewrite Hreg. run_outcome.
  apply assertion_free_bind;
    [now apply DecodeSignedOperand_asserts | intros ?; apply assertion_free_done].
Qed.

Lemma resolve_prefix_asserts (p : pointer) : assertion_free (resolve_prefix p).
Proof.
  unfold resolve_prefix.
  apply assertion_free_bind; [apply assertion_free_deref | intros b0].
  cbv zeta. destruct (IsPrefixScalingBytecode (FromByte b0)).
  - apply assertion_free_bind; [apply assertion_free_deref | intros b1].
    apply assertion_free_done.
  - apply assertion_free_done.
Qed.

Lemma operand_contract_size (t : OperandType.t) (operand_scale : OperandScale.t) :
  operand_contract t operand_scale = true ->
  SizeOfOperand t operand_scale <> OperandSize.kNone.
Proof.
  unfold operand_contract. destruct (SizeOfOperand t operand_scale);
    [discriminate | discriminate | discriminate | discriminate].
Qed.

Lemma print_operand_asserts (p : pointer) (parameter_count prefix_offset : Z)
    (operand_scale : OperandScale.t) (bytecode : Bytecode) (n i range : Z) :
  operand_contract (GetOperandType bytecode i) operand_scale = true ->
  never_asserts
    (print_operand host p parameter_count prefix_offset operand_scale bytecode
       n i range).
Proof.
  intros Hc. pose proof (operand_contract_size _ _ Hc) as Hn.
  unfold operand_contract in Hc. unfold print_operand, print_register_range.
  destruct (SizeOfOperand (GetOperandType bytecode i) operand_scale) eqn:Es;
    try contradiction;
    destruct (GetOperandType bytecode i) eqn:Et; try discriminate Hc;
    try (apply andb_prop in Hc; destruct Hc as [Hreg Hu]);
    try (apply negb_true_iff in Hc);
    try (apply negb_true_iff in Hu);
    destruct (negb (i =? n - 1));
    repeat first
      [ apply never_asserts_ret
      | apply never_asserts_emit
      | apply never_asserts_lift;
          first [ apply DecodeUnsignedOperand_asserts
                | apply DecodeSignedOperand_asserts
                | apply DecodeRegisterOperand_asserts ];
          solve [ assumption | rewrite Es; discriminate ]
      | apply never_asserts_bind; [|intros ?] ].
Qed.

End Assertions.

(** ** Well-formed operands are decoded and rendered *)

Section WellFormed.

Context {md : Bytecodes.metadata} {rs : Register.scheme}.
Variable host : endianness.
Variables (p : pointer) (parameter_count prefix_offset : Z).
Variables (operand_scale : OperandScale.t) (bytecode : Bytecodes.Bytecode).

Import Bytecodes.

Lemma operand_text_wf (i range : Z) :
  operand_wf p prefix_offset operand_scale bytecode i ->
  exists s range',
    operand_text host p parameter_count prefix_offset operand_scale bytecode i range
      = Done (s, range') /\
    rendered_as host p parameter_count prefix_offset operand_scale bytecode i s.
Proof.
  unfold operand_wf, operand_text, rendered_as. cbv zeta.
  intros [Hc Hr]. pose proof (operand_contract_size _ _ Hc) as Hn.
  unfold operand_contract in Hc.
  destruct (SizeOfOperand (GetOperandType bytecode i) operand_scale) eqn:Es;
    try contradiction;
    destruct (GetOperandType bytecode i) eqn:Et; try discriminate Hc;
    try (apply andb_prop in Hc; destruct Hc as [Hreg Hu]);
    try (apply negb_true_iff in Hc);
    try (apply negb_true_iff in Hu);
    rewrite <- Es in Hr, Hn;
    first
      [ destruct (DecodeUnsignedOperand_done host _ _ _ Hc Hn Hr) as [v Hv]
      | destruct (DecodeSignedOperand_done host _ _ _ Hc Hn Hr) as [v Hv]
      | destruct (DecodeRegisterOperand_done host _ _ _ Hreg Hu Hn Hr) as [v Hv] ];
    rewrite Hv; run_outcome;
    eexists; eexists; (split; [reflexivity|]);
    first [exact I | eexists; split; reflexivity].
Qed.

Lemma operand_texts_wf (k : nat) :
  forall i range,
    (forall j, i <= j < i + Z.of_nat k ->
               operand_wf p prefix_offset operand_scale bytecode j) ->
    exists texts,
      operand_texts host p parameter_count prefix_offset operand_scale bytecode
        k i range = Done texts /\
      forall j, i <= j < i + Z.of_nat k ->
        rendered_as host p parameter_count prefix_offset operand_scale bytecode j
          (nth (Z.to_nat (j - i)) texts "").
Proof.
  induction k as [|k IH]; intros i range Hwf; cbn [operand_texts].
  - exists []. split; [reflexivity | intros j Hj; lia].
  - destruct (operand_text_wf i range) as (s & range1 & Hs & Hform);
      [apply Hwf; lia|].
    destruct (IH (i + 1) range1) as (rest & Hrest & Hforms);
      [intros j Hj; apply Hwf; lia|].
    exists (s :: rest). rewrite Hs. run_outcome. rewrite Hrest. run_outcome.
    split; [reflexivity|]. intros j Hj.
    destruct (Z.eq_dec j i) as [->|Hne].
    + now rewrite Z.sub_diag.
    + replace (Z.to_nat (j - i)) with (S (Z.to_nat (j - (i + 1)))) by lia.
      apply Hforms. lia.
Qed.

End WellFormed.

Lemma length_slice (p : pointer) (n : Z) :
  readable p n -> List.length (slice p n) = Z.to_nat n.
Proof.
  intros [Hlo Hhi]. unfold slice. rewrite length_firstn, length_skipn. lia.
Qed.

Lemma length_hex_group (b : byte) : String.length (hex_group b) = 3%nat.
Proof. reflexivity. Qed.

Lemma length_hex_dump (bs : list byte) :
  String.length (hex_dump bs) = (3 * List.length bs)%nat.
Proof.
  induction bs as [|b bs IH]; [reflexivity|].
  cbn [hex_dump List.length]. rewrite length_append, length_hex_group, IH. lia.
Qed.

Lemma length_padding (n : nat) : String.length (padding n) = (3 * n)%nat.
Proof.
  induction n as [|n IH]; [reflexivity|].
  cbn [padding]. rewrite length_append, IH. simpl. lia.
Qed.

Lemma resolve_prefix_bytes {md : Bytecodes.metadata} (p : pointer) (b0 b1 : byte) :
  deref p 0 = Done b0 ->
  (Bytecodes.IsPrefixScalingBytecode (Bytecodes.FromByte b0) = true ->
   deref p 1 = Done b1) ->
  resolve_prefix p =
  Done (if Bytecodes.IsPrefixScalingBytecode (Bytecodes.FromByte b0)
        then (1, Bytecodes.PrefixBytecodeToOperandScale (Bytecodes.FromByte b0),
              Bytecodes.FromByte b1)
        else (0, OperandScale.kSingle, Bytecodes.FromByte b0)).
Proof.
  intros H0 H1. unfold resolve_prefix. rewrite H0. run_outcome. cbv zeta.
  destruct (Bytecodes.IsPrefixScalingBytecode (Bytecodes.FromByte b0)).
  - rewrite H1 by reflexivity. reflexivity.
  - reflexivity.
Qed.

(** ** The disassembler: what every call writes *)

Section Claims.

Context {md : Bytecodes.metadata} {rs : Register.scheme}.
Variable host : endianness.

Import Bytecodes.

(** Bytes, padding and mnemonic come first, whatever happens afterwards. *)
Lemma Decode_line_start (p : pointer) (parameter_count : Z) (os : ostream)
    (prefix_offset : Z) (operand_scale : OperandScale.t) (bytecode : Bytecode) :
  resolve_prefix p = Done (prefix_offset, operand_scale, bytecode) ->
  readable p (prefix_offset + Size bytecode operand_scale) ->
  exists rest,
    contents (snd (Decode host p parameter_count os)) =
    contents os
    ++ hex_dump (slice p (prefix_offset + Size bytecode operand_scale))
    ++ padding (Z.to_nat (kBytecodeColumnSize
                          - (prefix_offset + Size bytecode operand_scale)))
    ++ ToString bytecode operand_scale ++ " " ++ rest.
Proof.
  intros Hpre Hr. rewrite (Decode_prologue host p _ os _ _ _ Hpre Hr).
  match goal with
  | |- context [print_operands host p ?pc ?po ?sc ?bc ?o] =>
      destruct (print_operands_appends host p pc po sc bc o) as [rest ->]
  end.
  exists rest. cbn [contents]. now rewrite !append_assoc.
Qed.

(** C3: when the first byte is a scaling prefix, [Decode] takes the scale
    the prefix denotes and the opcode from the second byte, and writes
    exactly [1 + Size(opcode, scale)] two-digit groups, one per byte of the
    instruction; otherwise the scale is single, there is no prefix, and it
    writes exactly [Size(opcode, single)] groups. *)
Theorem C3_scale_prefix_accounting (p : pointer) (parameter_count : Z)
    (os : ostream) (b0 b1 : byte) :
  deref p 0 = Done b0 ->
  (IsPrefixScalingBytecode (FromByte b0) = true -> deref p 1 = Done b1) ->
  let prefixed := IsPrefixScalingBytecode (FromByte b0) in
  let prefix_offset := if prefixed then 1 else 0 in
  let operand_scale :=
    if prefixed then PrefixBytecodeToOperandScale (FromByte b0)
    else OperandScale.kSingle in
  let bytecode := if prefixed then FromByte b1 else FromByte b0 in
  let consumed := prefix_offset + Size bytecode operand_scale in
  readable p consumed ->
  resolve_prefix p = Done (prefix_offset, operand_scale, bytecode) /\
  List.length (slice p consumed) = Z.to_nat consumed /\
  String.length (hex_dump (slice p consumed)) = (3 * Z.to_nat consumed)%nat /\
  exists rest,
    contents (snd (Decode host p parameter_count os)) =
    contents os
    ++ hex_dump (slice p consumed)
    ++ padding (Z.to_nat (kBytecodeColumnSize - consumed))
    ++ ToString bytecode operand_scale ++ " " ++ rest.
Proof.
  intros H0 H1 prefixed prefix_offset operand_scale bytecode consumed Hr.
  assert (Hpre : resolve_prefix p = Done (prefix_offset, operand_scale, bytecode)).
  { rewrite (resolve_prefix_bytes p b0 b1 H0 H1).
    unfold prefix_offset, operand_scale, bytecode, prefixed.
    now destruct (IsPrefixScalingBytecode (FromByte b0)). }
  split; [exact Hpre|].
  split; [now apply length_slice|].
  split; [rewrite length_hex_dump, length_slice by assumption; reflexivity|].
  now apply Decode_line_start.
Qed.

(** C4: on a debug-break opcode [Decode] returns right after the bytes,
    the padding, the mnemonic and its blank; no operand is printed,
    however many operands the opcode declares. *)
Theorem C4_debug_break_prints_no_operands (p : pointer) (parameter_count : Z)
    (os : ostream) (prefix_offset : Z) (operand_scale : OperandScale.t)
    (bytecode : Bytecode) :
  resolve_prefix p = Done (prefix_offset, operand_scale, bytecode) ->
  readable p (prefix_offset + Size bytecode operand_scale) ->
  IsDebugBreak bytecode = true ->
  Decode host p parameter_count os =
  (Done tt,
   {| fmt := ios.init;
      contents :=
        contents os
        ++ hex_dump (slice p (prefix_offset + Size bytecode operand_scale))
        ++ padding (Z.to_nat (kBytecodeColumnSize
                              - (prefix_offset + Size bytecode operand_scale)))
        ++ ToString bytecode operand_scale ++ " " |}).
Proof.
  intros Hpre Hr Hbreak. rewrite (Decode_prologue host p _ os _ _ _ Hpre Hr).
  unfold print_operands. now rewrite Hbreak.
Qed.

(** C9: after the byte groups come exactly [max(0, 6 - (prefix + size))]
    blank groups of three characters, so the mnemonic starts at or after
    the sixth group's end. *)
Theorem C9_padding_to_column (p : pointer) (parameter_count : Z) (os : ostream)
    (prefix_offset : Z) (operand_scale : OperandScale.t) (bytecode : Bytecode) :
  resolve_prefix p = Done (prefix_offset, operand_scale, bytecode) ->
  let groups := prefix_offset + Size bytecode operand_scale in
  readable p groups ->
  let pads := Z.to_nat (Z.max 0 (kBytecodeColumnSize - groups)) in
  String.length (padding pads) = (3 * pads)%nat /\
  (3 * Z.to_nat kBytecodeColumnSize
     <= String.length (hex_dump (slice p groups) ++ padding pads))%nat /\
  exists rest,
    contents (snd (Decode host p parameter_count os)) =
    contents os
    ++ (hex_dump (slice p groups) ++ padding pads)
    ++ ToString bytecode operand_scale ++ " " ++ rest.
Proof.
  intros Hpre groups Hr pads.
  split; [apply length_padding|].
  split.
  - rewrite length_append, length_hex_dump, length_padding, length_slice
      by assumption.
    unfold pads, kBytecodeColumnSize. lia.
  - destruct (Decode_line_start p parameter_count os _ _ _ Hpre Hr) as [rest H].
    exists rest. rewrite H, append_assoc. unfold pads, groups.
    now replace (Z.to_nat (Z.max 0 (kBytecodeColumnSize
                                    - (prefix_offset + Size bytecode operand_scale))))
      with (Z.to_nat (kBytecodeColumnSize
                      - (prefix_offset + Size bytecode operand_scale))) by lia.
Qed.

(** C8: the operands of an instruction that is not a debug break are
    written in declared order, each in the form of its category ([#]
    and the unsigned value for counts and flags; the unsigned value in
    brackets for indices, runtime ids and intrinsic ids; the signed value
    in brackets for immediates; the register's name for the plain, out and
    maybe registers), with [", "] between two operands and nothing after
    the last. *)
Theorem C8_operands_in_order (p : pointer) (parameter_count : Z) (os : ostream)
    (prefix_offset : Z) (operand_scale : OperandScale.t) (bytecode : Bytecode) :
  resolve_prefix p = Done (prefix_offset, operand_scale, bytecode) ->
  readable p (prefix_offset + Size bytecode operand_scale) ->
  IsDebugBreak bytecode = false ->
  (forall i, 0 <= i < NumberOfOperands bytecode ->
             operand_wf p prefix_offset operand_scale bytecode i) ->
  exists texts,
    List.length texts = Z.to_nat (NumberOfOperands bytecode) /\
    (forall i, 0 <= i < NumberOfOperands bytecode ->
       rendered_as host p parameter_count prefix_offset operand_scale bytecode i
         (nth (Z.to_nat i) texts "")) /\
    Decode host p parameter_count os =
    (Done tt,
     {| fmt := ios.init;
        contents :=
          contents os
          ++ hex_dump (slice p (prefix_offset + Size bytecode operand_scale))
          ++ padding (Z.to_nat (kBytecodeColumnSize
                                - (prefix_offset + Size bytecode operand_scale)))
          ++ ToString bytecode operand_scale ++ " "
          ++ join ", " texts |}).
Proof.
  intros Hpre Hr Hbreak Hwf.
  destruct (operand_texts_wf host p parameter_count prefix_offset operand_scale
              bytecode (Z.to_nat (NumberOfOperands bytecode)) 0 0)
    as (texts & Htexts & Hforms); [intros j Hj; apply Hwf; lia|].
  pose proof (length_operand_texts _ _ _ _ _ _ _ _ _ _ Htexts) as Hlen.
  exists texts. split; [exact Hlen|]. split.
  - intros i Hi. specialize (Hforms i). rewrite Z.sub_0_r in Hforms.
    apply Hforms. lia.
  - rewrite (Decode_prologue host p _ os _ _ _ Hpre Hr).
    unfold print_operands, for_range. rewrite Hbreak, run_bind, Z.sub_0_r.
    destruct (operand_loop host p parameter_count prefix_offset operand_scale
                bytecode (NumberOfOperands bytecode) _ _ 0
                (contents os
                 ++ hex_dump (slice p (prefix_offset + Size bytecode operand_scale))
                 ++ padding (Z.to_nat (kBytecodeColumnSize
                              - (prefix_offset + Size bytecode operand_scale)))
                 ++ ToString bytecode operand_scale ++ " ")
                texts Htexts) as [range' Hloop].
    rewrite Hloop. cbn [ret M_monad].
    rewrite (separated_join texts 0 (NumberOfOperands bytecode))
      by (now rewrite Z.sub_0_r).
    now rewrite !append_assoc.
Qed.

(** C7: two runs of [Decode] on the same bytes with the same parameter
    count end the same way and write the same text, whatever the two
    streams held and however they were formatted before. *)
Theorem C7_deterministic (p : pointer) (parameter_count : Z) (os1 os2 : ostream) :
  fst (Decode host p parameter_count os1) = fst (Decode host p parameter_count os2) /\
  exists text,
    contents (snd (Decode host p parameter_count os1)) = contents os1 ++ text /\
    contents (snd (Decode host p parameter_count os2)) = contents os2 ++ text.
Proof.
  destruct (uniform_Decode host p parameter_count os1 os2 I)
    as (text & Hfst & H1 & H2 & _).
  split; [exact Hfst|]. now exists text.
Qed.

End Claims.

(** ** The operand decoders *)

Lemma to_signed_in_range (w u : Z) :
  0 <= u < 2 ^ w -> to_signed w u = if u <? 2 ^ (w - 1) then u else u - 2 ^ w.
Proof. intros H. unfold to_signed. now rewrite Z.mod_small. Qed.

Lemma to_signed_byte (b : byte) :
  to_signed 8 (byte_to_Z b) =
  if byte_to_Z b <? 128 then byte_to_Z b else byte_to_Z b - 256.
Proof. apply (to_signed_in_range 8). apply byte_to_Z_range. Qed.

Section DecoderClaims.

Context {md : Bytecodes.metadata} {rs : Register.scheme}.
Variable host : endianness.

Import Bytecodes.

Lemma DecodeSignedOperand_byte (p : pointer) (t : OperandType.t)
    (operand_scale : OperandScale.t) (b : byte) :
  IsUnsignedOperandType t = false ->
  SizeOfOperand t operand_scale = OperandSize.kByte ->
  deref p 0 = Done b ->
  DecodeSignedOperand host p t operand_scale =
  Done (if byte_to_Z b <? 128 then byte_to_Z b else byte_to_Z b - 256).
Proof.
  intros Hu Hs Hb. unfold DecodeSignedOperand. rewrite Hu, Hs, Hb. run_outcome.
  now rewrite to_signed_byte.
Qed.

Lemma DecodeUnsignedOperand_byte (p : pointer) (t : OperandType.t)
    (operand_scale : OperandScale.t) (b : byte) :
  IsUnsignedOperandType t = true ->
  SizeOfOperand t operand_scale = OperandSize.kByte ->
  deref p 0 = Done b ->
  DecodeUnsignedOperand host p t operand_scale = Done (byte_to_Z b).
Proof.
  intros Hu Hs Hb. unfold DecodeUnsignedOperand. now rewrite Hu, Hs, Hb.
Qed.

(** C5: at one-byte width the signed decoder sign-extends ([0x7F] is 127,
    [0x80] is -128) and the unsigned decoder zero-extends ([0x7F] is 127,
    [0x80] is 128); at two-byte width the 16-bit value read is likewise
    sign-extended by the signed decoder and returned as it is by the
    unsigned one. *)
Theorem C5_sign_and_zero_extension (p : pointer)
    (signed_type unsigned_type : OperandType.t)
    (signed_scale unsigned_scale : OperandScale.t) :
  IsUnsignedOperandType signed_type = false ->
  IsUnsignedOperandType unsigned_type = true ->
  (forall b, deref p 0 = Done b ->
     (SizeOfOperand signed_type signed_scale = OperandSize.kByte ->
      DecodeSignedOperand host p signed_type signed_scale =
      Done (if byte_to_Z b <? 128 then byte_to_Z b else byte_to_Z b - 256)) /\
     (SizeOfOperand unsigned_type unsigned_scale = OperandSize.kByte ->
      DecodeUnsignedOperand host p unsigned_type unsigned_scale =
      Done (byte_to_Z b))) /\
  (deref p 0 = Done x7f ->
     (SizeOfOperand signed_type signed_scale = OperandSize.kByte ->
      DecodeSignedOperand host p signed_type signed_scale = Done 127) /\
     (SizeOfOperand unsigned_type unsigned_scale = OperandSize.kByte ->
      DecodeUnsignedOperand host p unsigned_type unsigned_scale = Done 127)) /\
  (deref p 0 = Done x80 ->
     (SizeOfOperand signed_type signed_scale = OperandSize.kByte ->
      DecodeSignedOperand host p signed_type signed_scale = Done (-128)) /\
     (SizeOfOperand unsigned_type unsigned_scale = OperandSize.kByte ->
      DecodeUnsignedOperand host p unsigned_type unsigned_scale = Done 128)) /\
  (forall u, ReadUnalignedUInt16 host p = Done u ->
     0 <= u < 2 ^ 16 /\
     (SizeOfOperand signed_type signed_scale = OperandSize.kShort ->
      DecodeSignedOperand host p signed_type signed_scale =
      Done (if u <? 2 ^ 15 then u else u - 2 ^ 16)) /\
     (SizeOfOperand unsigned_type unsigned_scale = OperandSize.kShort ->
      DecodeUnsignedOperand host p unsigned_type unsigned_scale = Done u)).
Proof.
  intros Hs Hu.
  assert (Hbyte : forall b, deref p 0 = Done b ->
     (SizeOfOperand signed_type signed_scale = OperandSize.kByte ->
      DecodeSignedOperand host p signed_type signed_scale =
      Done (if byte_to_Z b <? 128 then byte_to_Z b else byte_to_Z b - 256)) /\
     (SizeOfOperand unsigned_type unsigned_scale = OperandSize.kByte ->
      DecodeUnsignedOperand host p unsigned_type unsigned_scale =
      Done (byte_to_Z b))).
  { intros b Hb. split; intros Hw.
    - now apply DecodeSignedOperand_byte.
    - now apply DecodeUnsignedOperand_byte. }
  split; [exact Hbyte|].
  split; [exact (Hbyte x7f)|].
  split; [exact (Hbyte x80)|].
  intros u Hread. pose proof (ReadUnalignedUInt16_range host p u Hread) as Hrange.
  split; [exact Hrange|]. split; intros Hw.
  - unfold DecodeSignedOperand. rewrite Hs, Hw, Hread. run_outcome.
    now rewrite (to_signed_in_range 16 u Hrange).
  - unfold DecodeUnsignedOperand. now rewrite Hu, Hw.
Qed.

(** C10: at four-byte width the signed decoder extends nothing: it
    returns the two's-complement reading of the very 32 bits the unsigned
    decoder returns. *)
Theorem C10_quad_same_bits (p : pointer)
    (signed_type unsigned_type : OperandType.t)
    (signed_scale unsigned_scale : OperandScale.t) :
  IsUnsignedOperandType signed_type = false ->
  IsUnsignedOperandType unsigned_type = true ->
  SizeOfOperand signed_type signed_scale = OperandSize.kQuad ->
  SizeOfOperand unsigned_type unsigned_scale = OperandSize.kQuad ->
  readable p 4 ->
  exists u,
    0 <= u < 2 ^ 32 /\
    ReadUnalignedUInt32 host p = Done u /\
    DecodeUnsignedOperand host p unsigned_type unsigned_scale = Done u /\
    DecodeSignedOperand host p signed_type signed_scale =
      Done (if u <? 2 ^ 31 then u else u - 2 ^ 32) /\
    to_unsigned 32 (if u <? 2 ^ 31 then u else u - 2 ^ 32) = u.
Proof.
  intros Hs Hu Hws Hwu Hr.
  destruct (ReadUnalignedUInt32_readable host p Hr)
    as (b0 & b1 & b2 & b3 & _ & _ & _ & _ & Hread).
  pose proof (ReadUnalignedUInt32_range host p _ Hread) as Hrange.
  eexists. split; [exact Hrange|]. split; [exact Hread|].
  split; [|split].
  - unfold DecodeUnsignedOperand. now rewrite Hu, Hwu.
  - unfold DecodeSignedOperand. rewrite Hs, Hws, Hread. run_outcome.
    now rewrite (to_signed_in_range 32 _ Hrange).
  - unfold to_unsigned.
    match goal with |- (if ?u <? _ then _ else _) mod _ = _ =>
      destruct (Z.ltb_spec u (2 ^ 31)) as [Hlt|Hge]
    end.
    + now apply Z.mod_small.
    + match goal with |- (?u - ?m) mod ?m = ?u =>
        replace (u - m) with (u + (-1) * m) by ring
      end.
      rewrite Z.mod_add by (now compute). now apply Z.mod_small.
Qed.

(** C6: when each decoder is given what its contract asks for (a type
    that is not unsigned for the signed decoder, an unsigned type for the
    unsigned decoder, a register type for the register decoder) and no
    width or operand type resolves to "none", no [DCHECK] fails and no
    [UNREACHABLE()] is reached, neither in the three decoders nor in the
    operand switch of [Decode]. *)
Theorem C6_assertions_hold (ps pu pr p : pointer)
    (ts tu tr : OperandType.t) (ss su sr : OperandScale.t)
    (parameter_count : Z) (os : ostream) :
  IsUnsignedOperandType ts = false ->
  SizeOfOperand ts ss <> OperandSize.kNone ->
  IsUnsignedOperandType tu = true ->
  SizeOfOperand tu su <> OperandSize.kNone ->
  IsRegisterOperandType tr = true ->
  IsUnsignedOperandType tr = false ->
  SizeOfOperand tr sr <> OperandSize.kNone ->
  (forall prefix_offset operand_scale bytecode i,
     resolve_prefix p = Done (prefix_offset, operand_scale, bytecode) ->
     0 <= i < NumberOfOperands bytecode ->
     operand_contract (GetOperandType bytecode i) operand_scale = true) ->
  assertion_free (DecodeSignedOperand host ps ts ss) /\
  assertion_free (DecodeUnsignedOperand host pu tu su) /\
  assertion_free (DecodeRegisterOperand host pr tr sr) /\
  assertion_free (fst (Decode host p parameter_count os)).
Proof.
  intros Hts Hss Htu Hsu Htr Htr' Hsr Hops.
  split; [now apply DecodeSignedOperand_asserts|].
  split; [now apply DecodeUnsignedOperand_asserts|].
  split; [now apply DecodeRegisterOperand_asserts|].
  unfold Decode. rewrite run_bind. unfold lift.
  pose proof (resolve_prefix_asserts p) as Hpre.
  destruct (resolve_prefix p) as [[[prefix_offset operand_scale] bytecode]|f] eqn:E.
  - specialize (Hops prefix_offset operand_scale bytecode).
    revert os.
    change (never_asserts
      (emit (set_fill "0") ;;
       emit (set_flags ios.hex) ;;
       for_range 0 (prefix_offset + Size bytecode operand_scale)
         (fun i _ =>
            b <- lift (deref p i) ;;
            emit (set_width 2) ;;
            emit (put_uint32 (to_unsigned 32 (byte_to_Z b))) ;;
            emit (put_char " ")) tt ;;
       emit (copyfmt (ios.copyfmt ios.init ios.init)) ;;
       for_range (prefix_offset + Size bytecode operand_scale) kBytecodeColumnSize
         (fun _ _ => emit (put_string "   ")) tt ;;
       emit (put_string (ToString bytecode operand_scale)) ;;
       emit (put_string " ") ;;
       print_operands host p parameter_count prefix_offset operand_scale bytecode)).
    unfold print_operands, for_range.
    repeat first
      [ apply never_asserts_emit
      | apply never_asserts_ret
      | apply never_asserts_lift; apply assertion_free_deref
      | apply never_asserts_for_fold; intros j s Hj
      | apply print_operand_asserts; apply Hops; [reflexivity | lia]
      | apply never_asserts_bind; [|intros ?]
      | match goal with |- never_asserts (if ?c then _ else _) => destruct c end ].
  - simpl. destruct Hpre as [H1 H2].
    split; intros E'; [apply H1 | apply H2]; congruence.
Qed.

End DecoderClaims.

(** ** The decoder on the sample table *)

Import Sample.

(** A one-operand instruction with a signed one-byte immediate: two byte
    groups, padding to the sixth column, the mnemonic, the bracketed value. *)
Example Decode_immediate :
  Decode LittleEndian (at_start [x0c; x05]) 0 fresh =
  (Done tt, {| fmt := ios.init; contents := "0c 05             AddSmi [5]" |}).
Proof. vm_compute. reflexivity. Qed.

Example Decode_extra_wide_triple :
  Decode LittleEndian (at_start [x01; x06; xfe; xff; xff; xff]) 2 fresh =
  (Done tt,
   {| fmt := ios.init;
      contents := "01 06 fe ff ff ff ForInPrepare.ExtraWide r2-r4" |}).
Proof. vm_compute. reflexivity. Qed.

(** A buffer that ends inside the instruction: the call stops at the first
    byte it cannot read. *)
Example Decode_truncated :
  fst (Decode LittleEndian (at_start [x01; x06; xfe; xff]) 2 fresh)
  = Fatal OutOfBounds.
Proof. vm_compute. reflexivity. Qed.

(** C1: the format of the caller's stream is not restored.  [Decode] copies
    [saved_format] from itself, not from [os], so the final [copyfmt] installs
    the format of a freshly constructed [std::ios]: a caller that had selected
    hexadecimal output and [*] as fill character gets its stream back with
    decimal output and a blank as fill character. *)
Theorem C1_caller_format_not_restored :
  let before := starred in
  let result := Decode LittleEndian (at_start [x03; x05]) 0 before in
  fst result = Done tt /\
  contents (snd result) = "03 05             LdaSmi [5]" /\
  ios.fill (fmt before) = "*"%char /\
  ios.flags (fmt before) = Z.lor ios.skipws ios.hex /\
  ios.fill (fmt (snd result)) = " "%char /\
  ios.flags (fmt (snd result)) = Z.lor ios.skipws ios.dec /\
  fmt (snd result) = ios.init /\
  fmt (snd result) <> fmt before.
Proof.
  cbv zeta. repeat split; try (vm_compute; reflexivity).
  vm_compute. discriminate.
Qed.

(** C2: the range length is carried from one operand to the next.  The
    local [range] is set to zero once, before the operand loop, so the second
    pair of one instruction is printed as [first-last] with
    [last.index = first.index + 2]: for the pair whose first register is
    [r4], the text is [r4-r6], not [r4-r5]. *)
Theorem C2_second_pair_spans_three_registers :
  let p := at_start [x0b; xfe; xfc] in
  Bytecodes.GetOperandType x0b 0 = OperandType.kRegPair /\
  Bytecodes.GetOperandType x0b 1 = OperandType.kRegOutPair /\
  DecodeRegisterOperand LittleEndian
    (operand_start p 0 OperandScale.kSingle x0b 1)
    OperandType.kRegOutPair OperandScale.kSingle = Done (Register.Register 4) /\
  Register.ToString (Register.Register (4 + 1)) 0 = "r5" /\
  Register.ToString (Register.Register (4 + 2)) 0 = "r6" /\
  Decode LittleEndian p 0 fresh =
  (Done tt,
   {| fmt := ios.init; contents := "0b fe fc          MovePair r2-r3, r4-r6" |}).
Proof. cbv zeta. repeat split; vm_compute; reflexivity. Qed.

Lemma C3_witness :
  deref (at_start [x00; x03; xfb; xff]) 0 = Done x00 /\
  deref (at_start [x00; x03; xfb; xff]) 1 = Done x03 /\
  readable (at_start [x00; x03; xfb; xff]) 4 /\
  resolve_prefix (at_start [x00; x03; xfb; xff]) = Done (1, OperandScale.kDouble, x03) /\
  exists rest,
    contents (snd (Decode LittleEndian (at_start [x00; x03; xfb; xff]) 0 fresh)) =
    "00 03 fb ff       LdaSmi.Wide " ++ rest.
Proof.
  assert (H0 : deref (at_start [x00; x03; xfb; xff]) 0 = Done x00) by reflexivity.
  assert (H1 : deref (at_start [x00; x03; xfb; xff]) 1 = Done x03) by reflexivity.
  assert (Hr : readable (at_start [x00; x03; xfb; xff]) 4) by (split; simpl; lia).
  destruct (C3_scale_prefix_accounting (md := table) (rs := registers)
              LittleEndian (at_start [x00; x03; xfb; xff])
              0 fresh x00 x03 H0 (fun _ => H1) Hr) as (Hpre & _ & _ & rest & Htext).
  split; [exact H0|]. split; [exact H1|]. split; [exact Hr|].
  split; [exact Hpre|]. exists rest. exact Htext.
Defined.

Lemma C4_witness :
  resolve_prefix (at_start [x08; xfe]) = Done (0, OperandScale.kSingle, x08) /\
  readable (at_start [x08; xfe]) 2 /\
  Bytecodes.IsDebugBreak x08 = true /\
  Bytecodes.NumberOfOperands x08 = 1 /\
  Decode LittleEndian (at_start [x08; xfe]) 7 starred =
  (Done tt, {| fmt := ios.init; contents := "08 fe             DebugBreak1 " |}).
Proof.
  assert (Hpre : resolve_prefix (at_start [x08; xfe])
                 = Done (0, OperandScale.kSingle, x08)) by reflexivity.
  assert (Hr : readable (at_start [x08; xfe]) 2) by (split; simpl; lia).
  assert (Hb : Bytecodes.IsDebugBreak x08 = true) by reflexivity.
  split; [exact Hpre|]. split; [exact Hr|]. split; [exact Hb|].
  split; [reflexivity|].
  exact (C4_debug_break_prints_no_operands (md := table) (rs := registers)
           LittleEndian (at_start [x08; xfe]) 7
           starred 0 OperandScale.kSingle x08 Hpre Hr Hb).
Defined.

Lemma C5_witness :
  Bytecodes.IsUnsignedOperandType OperandType.kImm = false /\
  Bytecodes.IsUnsignedOperandType OperandType.kIdx = true /\
  deref (at_start [x7f]) 0 = Done x7f /\
  deref (at_start [x80; xff]) 0 = Done x80 /\
  ReadUnalignedUInt16 LittleEndian (at_start [x80; xff]) = Done 65408 /\
  DecodeSignedOperand LittleEndian (at_start [x7f])
    OperandType.kImm OperandScale.kSingle = Done 127 /\
  DecodeUnsignedOperand LittleEndian (at_start [x7f])
    OperandType.kIdx OperandScale.kSingle = Done 127 /\
  DecodeSignedOperand LittleEndian (at_start [x80; xff])
    OperandType.kImm OperandScale.kSingle = Done (-128) /\
  DecodeUnsignedOperand LittleEndian (at_start [x80; xff])
    OperandType.kIdx OperandScale.kSingle = Done 128 /\
  DecodeSignedOperand LittleEndian (at_start [x80; xff])
    OperandType.kImm OperandScale.kDouble = Done (-128) /\
  DecodeUnsignedOperand LittleEndian (at_start [x80; xff])
    OperandType.kIdx OperandScale.kDouble = Done 65408.
Proof.
  assert (Hs : Bytecodes.IsUnsignedOperandType OperandType.kImm = false)
    by reflexivity.
  assert (Hu : Bytecodes.IsUnsignedOperandType OperandType.kIdx = true)
    by reflexivity.
  assert (H7f : deref (at_start [x7f]) 0 = Done x7f) by reflexivity.
  assert (H80 : deref (at_start [x80; xff]) 0 = Done x80) by reflexivity.
  assert (H16 : ReadUnalignedUInt16 LittleEndian (at_start [x80; xff]) = Done 65408)
    by reflexivity.
  pose proof (C5_sign_and_zero_extension (md := table) LittleEndian
                (at_start [x7f]) OperandType.kImm OperandType.kIdx
                OperandScale.kSingle OperandScale.kSingle Hs Hu)
    as (_ & Hlow & _ & _).
  pose proof (C5_sign_and_zero_extension (md := table) LittleEndian
                (at_start [x80; xff]) OperandType.kImm OperandType.kIdx
                OperandScale.kSingle OperandScale.kSingle Hs Hu)
    as (_ & _ & Hhigh & _).
  pose proof (C5_sign_and_zero_extension (md := table) LittleEndian
                (at_start [x80; xff]) OperandType.kImm OperandType.kIdx
                OperandScale.kDouble OperandScale.kDouble Hs Hu)
    as (_ & _ & _ & Hshort).
  destruct (Hlow H7f) as [Hlow_s Hlow_u].
  destruct (Hhigh H80) as [Hhigh_s Hhigh_u].
  destruct (Hshort 65408 H16) as (_ & Hshort_s & Hshort_u).
  split; [exact Hs|]. split; [exact Hu|]. split; [exact H7f|].
  split; [exact H80|]. split; [exact H16|].
  split; [exact (Hlow_s eq_refl)|]. split; [exact (Hlow_u eq_refl)|].
  split; [exact (Hhigh_s eq_refl)|]. split; [exact (Hhigh_u eq_refl)|].
  split; [exact (Hshort_s eq_refl) | exact (Hshort_u eq_refl)].
Defined.

Lemma C10_witness :
  Bytecodes.IsUnsignedOperandType OperandType.kImm = false /\
  Bytecodes.IsUnsignedOperandType OperandType.kIdx = true /\
  Bytecodes.SizeOfOperand OperandType.kImm OperandScale.kQuad = OperandSize.kQuad /\
  Bytecodes.SizeOfOperand OperandType.kIdx OperandScale.kQuad = OperandSize.kQuad /\
  readable (at_start [xfe; xff; xff; xff]) 4 /\
  exists u,
    0 <= u < 2 ^ 32 /\
    ReadUnalignedUInt32 LittleEndian (at_start [xfe; xff; xff; xff]) = Done u /\
    DecodeUnsignedOperand LittleEndian (at_start [xfe; xff; xff; xff])
      OperandType.kIdx OperandScale.kQuad = Done u /\
    DecodeSignedOperand LittleEndian (at_start [xfe; xff; xff; xff])
      OperandType.kImm OperandScale.kQuad =
      Done (if u <? 2 ^ 31 then u else u - 2 ^ 32) /\
    to_unsigned 32 (if u <? 2 ^ 31 then u else u - 2 ^ 32) = u.
Proof.
  assert (Hr : readable (at_start [xfe; xff; xff; xff]) 4) by (split; simpl; lia).
  split; [reflexivity|]. split; [reflexivity|]. split; [reflexivity|].
  split; [reflexivity|]. split; [exact Hr|].
  exact (C10_quad_same_bits (md := table) LittleEndian (at_start [xfe; xff; xff; xff])
           OperandType.kImm OperandType.kIdx OperandScale.kQuad OperandScale.kQuad
           eq_refl eq_refl eq_refl eq_refl Hr).
Defined.

Lemma C9_witness :
  resolve_prefix (at_start [x03; x05]) = Done (0, OperandScale.kSingle, x03) /\
  readable (at_start [x03; x05]) 2 /\
  exists rest,
    contents (snd (Decode LittleEndian (at_start [x03; x05]) 0 fresh)) =
    ("03 05 " ++ padding 4) ++ "LdaSmi" ++ " " ++ rest.
Proof.
  assert (Hpre : resolve_prefix (at_start [x03; x05])
                 = Done (0, OperandScale.kSingle, x03)) by reflexivity.
  assert (Hr : readable (at_start [x03; x05]) 2) by (split; simpl; lia).
  destruct (C9_padding_to_column (md := table) (rs := registers) LittleEndian
              (at_start [x03; x05]) 0 fresh 0 OperandScale.kSingle x03 Hpre Hr)
    as (_ & _ & rest & Htext).
  split; [exact Hpre|]. split; [exact Hr|]. exists rest. exact Htext.
Defined.

Lemma C8_witness :
  resolve_prefix (at_start [x05; x10; x01; xfe; x02; xfc])
    = Done (0, OperandScale.kSingle, x05) /\
  readable (at_start [x05; x10; x01; xfe; x02; xfc]) 6 /\
  Bytecodes.IsDebugBreak x05 = false /\
  (forall i, 0 <= i < 4 ->
     operand_wf (at_start [x05; x10; x01; xfe; x02; xfc]) 0 OperandScale.kSingle x05 i) /\
  exists texts,
    List.length texts = 4%nat /\
    Decode LittleEndian (at_start [x05; x10; x01; xfe; x02; xfc]) 0 starred =
    (Done tt,
     {| fmt := ios.init;
        contents := "05 10 01 fe 02 fc CallRuntimeForPair " ++ join ", " texts |}).
Proof.
  assert (Hpre : resolve_prefix (at_start [x05; x10; x01; xfe; x02; xfc])
                 = Done (0, OperandScale.kSingle, x05)) by reflexivity.
  assert (Hr : readable (at_start [x05; x10; x01; xfe; x02; xfc]) 6)
    by (split; simpl; lia).
  assert (Hb : Bytecodes.IsDebugBreak x05 = false) by reflexivity.
  assert (Hwf : forall i, 0 <= i < 4 ->
            operand_wf (at_start [x05; x10; x01; xfe; x02; xfc]) 0
              OperandScale.kSingle x05 i).
  { intros i Hi.
    assert (Hcases : i = 0 \/ i = 1 \/ i = 2 \/ i = 3) by lia.
    destruct Hcases as [-> | [-> | [-> | ->]]];
      (split; [reflexivity | split; simpl; lia]). }
  destruct (C8_operands_in_order (md := table) (rs := registers) LittleEndian
              (at_start [x05; x10; x01; xfe; x02; xfc]) 0 starred 0
              OperandScale.kSingle x05 Hpre Hr Hb Hwf)
    as (texts & Hlen & _ & Hrun).
  split; [exact Hpre|]. split; [exact Hr|]. split; [exact Hb|].
  split; [exact Hwf|]. exists texts. split; [exact Hlen | exact Hrun].
Defined.

Lemma C6_witness :
  Bytecodes.IsUnsignedOperandType OperandType.kImm = false /\
  Bytecodes.IsUnsignedOperandType OperandType.kIdx = true /\
  Bytecodes.IsRegisterOperandType OperandType.kReg = true /\
  (forall prefix_offset operand_scale bytecode i,
     resolve_prefix (at_start [x05; x10; x01; xfe; x02; xfc])
       = Done (prefix_offset, operand_scale, bytecode) ->
     0 <= i < Bytecodes.NumberOfOperands bytecode ->
     operand_contract (Bytecodes.GetOperandType bytecode i) operand_scale = true) /\
  assertion_free
    (DecodeSignedOperand LittleEndian (at_start [x80]) OperandType.kImm
       OperandScale.kSingle) /\
  assertion_free
    (DecodeUnsignedOperand LittleEndian (at_start [x80]) OperandType.kIdx
       OperandScale.kDouble) /\
  assertion_free
    (DecodeRegisterOperand LittleEndian (at_start [xfe]) OperandType.kReg
       OperandScale.kSingle) /\
  assertion_free
    (fst (Decode LittleEndian (at_start [x05; x10; x01; xfe; x02; xfc]) 0 fresh)).
Proof.
  assert (Hops : forall prefix_offset operand_scale bytecode i,
     resolve_prefix (at_start [x05; x10; x01; xfe; x02; xfc])
       = Done (prefix_offset, operand_scale, bytecode) ->
     0 <= i < Bytecodes.NumberOfOperands bytecode ->
     operand_contract (Bytecodes.GetOperandType bytecode i) operand_scale = true).
  { intros prefix_offset operand_scale bytecode i E Hi.
    apply Done_inj in E. injection E as <- <- <-.
    change (@Bytecodes.NumberOfOperands table x05) with 4 in Hi.
    assert (Hcases : i = 0 \/ i = 1 \/ i = 2 \/ i = 3) by lia.
    destruct Hcases as [-> | [-> | [-> | ->]]]; reflexivity. }
  split; [reflexivity|]. split; [reflexivity|]. split; [reflexivity|].
  split; [exact Hops|].
  exact (C6_assertions_hold (md := table) (rs := registers) LittleEndian
           (at_start [x80]) (at_start [x80]) (at_start [xfe])
           (at_start [x05; x10; x01; xfe; x02; xfc])
           OperandType.kImm OperandType.kIdx OperandType.kReg
           OperandScale.kSingle OperandScale.kDouble OperandScale.kSingle
           0 fresh
           eq_refl ltac:(discriminate) eq_refl ltac:(discriminate)
           eq_refl eq_refl ltac:(discriminate) Hops).
Defined.

(** ** The format [Decode] leaves behind *)

Lemma keeps_default_ret {A} (a : A) : keeps_default (ret a).
Proof. intros os H. exact H. Qed.

Lemma keeps_default_lift {A} (o : outcome A) : keeps_default (lift o).
Proof. intros os H. exact H. Qed.

Lemma keeps_default_bind {A B} (c : M A) (k : A -> M B) :
  keeps_default c -> (forall a, keeps_default (k a)) -> keeps_default (bind c k).
Proof.
  intros Hc Hk os H. rewrite run_bind. specialize (Hc os H).
  destruct (c os) as [[a|f] os']; simpl in *; [now apply Hk | exact Hc].
Qed.

Lemma keeps_default_for_fold {S} (body : Z -> S -> M S) (k : nat) :
  (forall i s, keeps_default (body i s)) ->
  forall i s, keeps_default (for_fold k i body s).
Proof.
  intros Hbody. induction k as [|k IH]; intros i s; cbn [for_fold].
  - apply keeps_default_ret.
  - apply keeps_default_bind; [apply Hbody | intros s'; apply IH].
Qed.

Lemma keeps_default_put_string (s : string) : keeps_default (emit (put_string s)).
Proof.
  intros [f text] H; simpl in H; subst f. cbn [emit snd].
  now rewrite put_string_default.
Qed.

Lemma keeps_default_put_uint32 (v : Z) : keeps_default (emit (put_uint32 v)).
Proof.
  intros [f text] H; simpl in H; subst f. cbn [emit snd].
  now rewrite put_uint32_default.
Qed.

Lemma keeps_default_put_int32 (v : Z) : keeps_default (emit (put_int32 v)).
Proof.
  intros [f text] H; simpl in H; subst f. cbn [emit snd].
  now rewrite put_int32_default.
Qed.

Section DefaultFormat.

Context {md : Bytecodes.metadata} {rs : Register.scheme}.
Variable host : endianness.

Import Bytecodes.

Lemma keeps_default_print_operands (p : pointer) (parameter_count prefix_offset : Z)
    (operand_scale : OperandScale.t) (bytecode : Bytecode) :
  keeps_default
    (print_operands host p parameter_count prefix_offset operand_scale bytecode).
Proof.
  unfold print_operands, for_range. destruct (IsDebugBreak bytecode).
  - apply keeps_default_ret.
  - apply keeps_default_bind; [|intros ?; apply keeps_default_ret].
    apply keeps_default_for_fold. intros i range.
    unfold print_operand, print_register_range.
    destruct (GetOperandType bytecode i);
      destruct (negb (i =? NumberOfOperands bytecode - 1));
      repeat first
        [ apply keeps_default_ret
        | apply keeps_default_lift
        | apply keeps_default_put_string
        | apply keeps_default_put_uint32
        | apply keeps_default_put_int32
        | apply keeps_default_bind; [|intros ?] ].
Qed.

(** X1: once the bytes of the instruction have been printed, the stream is
    in the format of a freshly constructed [std::ios], whatever format the
    caller had selected and however the printing of the operands ends. *)
Theorem X1_default_format_after_Decode (p : pointer) (parameter_count : Z)
    (os : ostream) (prefix_offset : Z) (operand_scale : OperandScale.t)
    (bytecode : Bytecode) :
  resolve_prefix p = Done (prefix_offset, operand_scale, bytecode) ->
  readable p (prefix_offset + Size bytecode operand_scale) ->
  fmt (snd (Decode host p parameter_count os)) = ios.init.
Proof.
  intros Hpre Hr. rewrite (Decode_prologue host p _ os _ _ _ Hpre Hr).
  now apply keeps_default_print_operands.
Qed.

End DefaultFormat.

(** ** Register ranges *)

Section Ranges.

Context {md : Bytecodes.metadata} {rs : Register.scheme}.
Variable host : endianness.
Variables (p : pointer) (parameter_count prefix_offset : Z).
Variables (operand_scale : OperandScale.t) (bytecode : Bytecodes.Bytecode).

Import Bytecodes.





End Ranges.

Section RangeProperties.

Context {md : Bytecodes.metadata} {rs : Register.scheme}.
Variable host : endianness.

Import Bytecodes.



End RangeProperties.

(** ** The values the decoders return *)

Lemma to_signed_bounds (w u : Z) :
  0 < w -> 0 <= u < 2 ^ w -> - 2 ^ (w - 1) <= to_signed w u < 2 ^ (w - 1).
Proof.
  intros Hw Hu.
  assert (Hpow : 2 ^ w = 2 * 2 ^ (w - 1)).
  { rewrite <- Z.pow_succ_r by lia. f_equal. lia. }
  rewrite (to_signed_in_range w u Hu).
  destruct (Z.ltb_spec u (2 ^ (w - 1))); lia.
Qed.

Lemma to_signed_same_bits (w u : Z) :
  0 < w -> 0 <= u < 2 ^ w ->
  (to_signed w u) mod 2 ^ w = u /\ (to_signed w u = u <-> u < 2 ^ (w - 1)).
Proof.
  intros Hw Hu.
  assert (Hpos : 0 < 2 ^ w) by (apply Z.pow_pos_nonneg; lia).
  rewrite (to_signed_in_range w u Hu).
  destruct (Z.ltb_spec u (2 ^ (w - 1))) as [Hlt|Hge].
  - split; [now apply Z.mod_small | tauto].
  - split.
    + replace (u - 2 ^ w) with (u + (-1) * 2 ^ w) by ring.
      rewrite Z.mod_add by lia. now apply Z.mod_small.
    + split; intros H; lia.
Qed.

Section DecodedValues.

Context {md : Bytecodes.metadata} {rs : Register.scheme}.
Variable host : endianness.

Import Bytecodes.

(** The unsigned reading of an operand's bytes, for each width. *)
Lemma operand_bits (p : pointer) (size : OperandSize.t) :
  size <> OperandSize.kNone ->
  readable p (bytes_of size) ->
  exists u,
    0 <= u < 2 ^ (8 * bytes_of size) /\
    match size with
    | OperandSize.kNone => False
    | OperandSize.kByte => exists b, deref p 0 = Done b /\ u = byte_to_Z b
    | OperandSize.kShort => ReadUnalignedUInt16 host p = Done u
    | OperandSize.kQuad => ReadUnalignedUInt32 host p = Done u
    end.
Proof.
  intros Hn Hr. destruct size; [contradiction | | |]; cbn [bytes_of] in *.
  - destruct (deref_readable p 1 0 Hr) as [b Hb]; [lia|].
    exists (byte_to_Z b). split; [apply byte_to_Z_range | eauto].
  - destruct (ReadUnalignedUInt16_readable host p Hr) as (b0 & b1 & _ & _ & H).
    eexists. split; [exact (ReadUnalignedUInt16_range host p _ H) | exact H].
  - destruct (ReadUnalignedUInt32_readable host p Hr)
      as (b0 & b1 & b2 & b3 & _ & _ & _ & _ & H).
    eexists. split; [exact (ReadUnalignedUInt32_range host p _ H) | exact H].
Qed.

Lemma DecodeUnsignedOperand_bits (p : pointer) (t : OperandType.t)
    (operand_scale : OperandScale.t) (u : Z) :
  IsUnsignedOperandType t = true ->
  match SizeOfOperand t operand_scale with
  | OperandSize.kNone => False
  | OperandSize.kByte => exists b, deref p 0 = Done b /\ u = byte_to_Z b
  | OperandSize.kShort => ReadUnalignedUInt16 host p = Done u
  | OperandSize.kQuad => ReadUnalignedUInt32 host p = Done u
  end ->
  DecodeUnsignedOperand host p t operand_scale = Done u.
Proof.
  intros Hu H. unfold DecodeUnsignedOperand. rewrite Hu. run_outcome.
  destruct (SizeOfOperand t operand_scale); [contradiction | | exact H | exact H].
  destruct H as (b & -> & ->). reflexivity.
Qed.

Lemma DecodeSignedOperand_bits (p : pointer) (t : OperandType.t)
    (operand_scale : OperandScale.t) (u : Z) :
  IsUnsignedOperandType t = false ->
  match SizeOfOperand t operand_scale with
  | OperandSize.kNone => False
  | OperandSize.kByte => exists b, deref p 0 = Done b /\ u = byte_to_Z b
  | OperandSize.kShort => ReadUnalignedUInt16 host p = Done u
  | OperandSize.kQuad => ReadUnalignedUInt32 host p = Done u
  end ->
  DecodeSignedOperand host p t operand_scale =
  Done (to_signed (8 * bytes_of (SizeOfOperand t operand_scale)) u).
Proof.
  intros Hu H. unfold DecodeSignedOperand. rewrite Hu. run_outcome.
  destruct (SizeOfOperand t operand_scale); [contradiction | | |].
  - destruct H as (b & -> & ->). reflexivity.
  - rewrite H. reflexivity.
  - rewrite H. reflexivity.
Qed.

(** X4: an unsigned operand of [n] bytes decodes to a value in
    [0, 2^(8n)). *)
Theorem X4_unsigned_operand_range (p : pointer) (t : OperandType.t)
    (operand_scale : OperandScale.t) :
  IsUnsignedOperandType t = true ->
  SizeOfOperand t operand_scale <> OperandSize.kNone ->
  readable p (bytes_of (SizeOfOperand t operand_scale)) ->
  exists v,
    DecodeUnsignedOperand host p t operand_scale = Done v /\
    0 <= v < 2 ^ (8 * bytes_of (SizeOfOperand t operand_scale)).
Proof.
  intros Hu Hn Hr. destruct (operand_bits p _ Hn Hr) as (u & Hrange & Hbits).
  exists u. split; [now apply DecodeUnsignedOperand_bits | exact Hrange].
Qed.

(** X5: a signed operand of [n] bytes decodes to a value in
    [-2^(8n-1), 2^(8n-1)). *)
Theorem X5_signed_operand_range (p : pointer) (t : OperandType.t)
    (operand_scale : OperandScale.t) :
  IsUnsignedOperandType t = false ->
  SizeOfOperand t operand_scale <> OperandSize.kNone ->
  readable p (bytes_of (SizeOfOperand t operand_scale)) ->
  exists v,
    DecodeSignedOperand host p t operand_scale = Done v /\
    - 2 ^ (8 * bytes_of (SizeOfOperand t operand_scale) - 1) <= v
      < 2 ^ (8 * bytes_of (SizeOfOperand t operand_scale) - 1).
Proof.
  intros Hu Hn Hr. destruct (operand_bits p _ Hn Hr) as (u & Hrange & Hbits).
  eexists. split; [now apply DecodeSignedOperand_bits; eauto|].
  apply to_signed_bounds; [|exact Hrange].
  destruct (SizeOfOperand t operand_scale); [contradiction | | |]; reflexivity.
Qed.

(** X6: on the same bytes and at the same width the two decoders return
    the same bits: the signed value is congruent to the unsigned one modulo
    [2^(8n)], and the two are equal exactly when the top bit is clear. *)
Theorem X6_signed_and_unsigned_same_bits (p : pointer)
    (signed_type unsigned_type : OperandType.t)
    (signed_scale unsigned_scale : OperandScale.t) :
  IsUnsignedOperandType signed_type = false ->
  IsUnsignedOperandType unsigned_type = true ->
  SizeOfOperand signed_type signed_scale
    = SizeOfOperand unsigned_type unsigned_scale ->
  SizeOfOperand unsigned_type unsigned_scale <> OperandSize.kNone ->
  readable p (bytes_of (SizeOfOperand unsigned_type unsigned_scale)) ->
  exists vs vu,
    DecodeSignedOperand host p signed_type signed_scale = Done vs /\
    DecodeUnsignedOperand host p unsigned_type unsigned_scale = Done vu /\
    vs mod 2 ^ (8 * bytes_of (SizeOfOperand unsigned_type unsigned_scale)) = vu /\
    (vs = vu <->
     vu < 2 ^ (8 * bytes_of (SizeOfOperand unsigned_type unsigned_scale) - 1)).
Proof.
  intros Hs Hu Hsame Hn Hr.
  destruct (operand_bits p _ Hn Hr) as (u & Hrange & Hbits).
  exists (to_signed (8 * bytes_of (SizeOfOperand unsigned_type unsigned_scale)) u), u.
  split.
  { rewrite <- Hsame. apply DecodeSignedOperand_bits; [exact Hs|].
    now rewrite Hsame. }
  split; [now apply DecodeUnsignedOperand_bits|].
  apply to_signed_same_bits; [|exact Hrange].
  destruct (SizeOfOperand unsigned_type unsigned_scale);
    [contradiction | | |]; reflexivity.
Qed.

End DecodedValues.

(** ** Inconsistent metadata *)

Lemma bind_ext {A B} (c : M A) (k1 k2 : A -> M B) (os : ostream) :
  (forall a os', k1 a os' = k2 a os') -> bind c k1 os = bind c k2 os.
Proof.
  intros H. rewrite !run_bind. destruct (c os) as [[a|f] os']; [apply H | reflexivity].
Qed.

Lemma for_fold_ext {S} (body1 body2 : Z -> S -> M S) (k : nat) :
  forall i s os,
    (forall j s' os', i <= j < i + Z.of_nat k -> body1 j s' os' = body2 j s' os') ->
    for_fold k i body1 s os = for_fold k i body2 s os.
Proof.
  induction k as [|k IH]; intros i s os H; cbn [for_fold]; [reflexivity|].
  rewrite !run_bind, (H i s os) by lia.
  destruct (body2 i s os) as [[s'|f] os']; [|reflexivity].
  apply IH. intros j s'' os'' Hj. apply H. lia.
Qed.

Section Violations.

Context {md : Bytecodes.metadata} {rs : Register.scheme}.
Variable host : endianness.
Variables (p : pointer) (parameter_count prefix_offset : Z).
Variables (operand_scale : OperandScale.t) (bytecode : Bytecodes.Bytecode).

Import Bytecodes.

(** An operand that breaks the contract stops the call at an assertion,
    before any of its bytes is read. *)
Lemma print_operand_violation (n i range : Z) (os : ostream) :
  operand_contract (GetOperandType bytecode i) operand_scale = false ->
  asserts (fst (print_operand host p parameter_count prefix_offset operand_scale
                  bytecode n i range os)).
Proof.
  unfold operand_contract, asserts, print_operand, print_register_range,
    DecodeRegisterOperand, DecodeUnsignedOperand, DecodeSignedOperand.
  intros H. cbv zeta.
  destruct (SizeOfOperand (GetOperandType bytecode i) operand_scale);
    destruct (IsUnsignedOperandType (GetOperandType bytecode i));
    destruct (IsRegisterOperandType (GetOperandType bytecode i));
    destruct (GetOperandType bytecode i);
    try discriminate H;
    cbn [bind ret M_monad outcome_monad emit lift fst DCHECK UNREACHABLE negb];
    auto.
Qed.

Lemma operand_loop_violation (n : Z) (d : nat) :
  forall (k : nat) (i j range : Z) (text : string),
    (d < k)%nat -> j = i + Z.of_nat d ->
    (forall j', i <= j' < j ->
                operand_wf p prefix_offset operand_scale bytecode j') ->
    operand_contract (GetOperandType bytecode j) operand_scale = false ->
    asserts
      (fst (for_fold k i
              (print_operand host p parameter_count prefix_offset operand_scale
                 bytecode n)
              range {| fmt := ios.init; contents := text |})).
Proof.
  induction d as [|d IH]; intros k i j range text Hd Hj Hwf Hbad;
    (destruct k as [|k]; [lia|]); cbn [for_fold]; rewrite run_bind.
  - replace j with i in * by lia.
    pose proof (print_operand_violation n i range
                  {| fmt := ios.init; contents := text |} Hbad) as Hfail.
    destruct (print_operand _ _ _ _ _ _ _ _ _ _) as [[r|f] os'];
      destruct Hfail as [Hfail|Hfail]; simpl in Hfail |- *;
      try discriminate Hfail; rewrite Hfail; [left | right]; reflexivity.
  - destruct (operand_text_wf host p parameter_count prefix_offset operand_scale
                bytecode i range) as (s & range1 & Hs & _); [apply Hwf; lia|].
    rewrite (print_operand_text host p parameter_count prefix_offset operand_scale
               bytecode n i range range1 s text Hs).
    apply (IH k (i + 1) j); [lia | lia | | exact Hbad].
    intros j' Hj'. apply Hwf. lia.
Qed.

End Violations.

Section FurtherProperties.

Context {md : Bytecodes.metadata} {rs : Register.scheme}.
Variable host : endianness.

Import Bytecodes.

(** X7: when the operands before operand [i] can be decoded and operand [i]
    breaks the decoders' contract (its type or width is "none", or its type
    is not what the decoder chosen for it accepts), [Decode] stops at an
    assertion: a failed [DCHECK] or [UNREACHABLE()]. *)
Theorem X7_inconsistent_operand_halts (p : pointer) (parameter_count : Z)
    (os : ostream) (prefix_offset : Z) (operand_scale : OperandScale.t)
    (bytecode : Bytecode) (i : Z) :
  resolve_prefix p = Done (prefix_offset, operand_scale, bytecode) ->
  readable p (prefix_offset + Size bytecode operand_scale) ->
  IsDebugBreak bytecode = false ->
  0 <= i < NumberOfOperands bytecode ->
  (forall j, 0 <= j < i -> operand_wf p prefix_offset operand_scale bytecode j) ->
  operand_contract (GetOperandType bytecode i) operand_scale = false ->
  fst (Decode host p parameter_count os) = Fatal DCheckFailed \/
  fst (Decode host p parameter_count os) = Fatal Unreachable.
Proof.
  intros Hpre Hr Hbreak Hi Hwf Hbad.
  rewrite (Decode_prologue host p _ os _ _ _ Hpre Hr).
  unfold print_operands, for_range. rewrite Hbreak, run_bind.
  match goal with
  | |- context [for_fold ?k 0 ?body 0 {| fmt := ios.init; contents := ?text |}] =>
      assert (Hloop : asserts (fst (for_fold k 0 body 0
                                      {| fmt := ios.init; contents := text |})))
        by (apply (operand_loop_violation host p parameter_count prefix_offset
                     operand_scale bytecode (NumberOfOperands bytecode)
                     (Z.to_nat i) k 0 i 0 text);
            [lia | lia | intros j' Hj'; apply Hwf; lia | exact Hbad]);
      destruct (for_fold k 0 body 0 {| fmt := ios.init; contents := text |})
        as [[r|f] os']
  end;
    destruct Hloop as [Hloop|Hloop]; simpl in Hloop |- *;
    try discriminate Hloop; injection Hloop as ->; auto.
Qed.

(** X8: for a size that is not negative, the mnemonic starts right after
    [max(6, prefix + size)] groups of three characters; for every
    instruction of at most six bytes that is column 18, so the mnemonics of
    consecutive lines are aligned. *)
Theorem X8_mnemonic_column (p : pointer) (parameter_count : Z) (os : ostream)
    (prefix_offset : Z) (operand_scale : OperandScale.t) (bytecode : Bytecode) :
  resolve_prefix p = Done (prefix_offset, operand_scale, bytecode) ->
  let groups := prefix_offset + Size bytecode operand_scale in
  0 <= groups ->
  readable p groups ->
  let line := hex_dump (slice p groups)
              ++ padding (Z.to_nat (kBytecodeColumnSize - groups)) in
  String.length line = (3 * Z.to_nat (Z.max kBytecodeColumnSize groups))%nat /\
  (groups <= kBytecodeColumnSize -> String.length line = 18%nat) /\
  exists rest,
    contents (snd (Decode host p parameter_count os)) =
    contents os ++ line ++ ToString bytecode operand_scale ++ " " ++ rest.
Proof.
  intros Hpre groups Hpos Hr line.
  assert (Hlen : String.length line
                 = (3 * Z.to_nat (Z.max kBytecodeColumnSize groups))%nat).
  { unfold line.
    rewrite length_append, length_hex_dump, length_padding, length_slice
      by assumption.
    unfold kBytecodeColumnSize. lia. }
  split; [exact Hlen|]. split.
  - intros Hle. rewrite Hlen. unfold kBytecodeColumnSize in *. lia.
  - destruct (Decode_line_start host p parameter_count os _ _ _ Hpre Hr)
      as [rest H].
    exists rest. rewrite H. unfold line, groups. now rewrite append_assoc.
Qed.

Lemma print_operand_parameter_count (p : pointer) (pc1 pc2 prefix_offset : Z)
    (operand_scale : OperandScale.t) (bytecode : Bytecode) (n i range : Z)
    (os : ostream) :
  prints_register (GetOperandType bytecode i) = false ->
  print_operand host p pc1 prefix_offset operand_scale bytecode n i range os =
  print_operand host p pc2 prefix_offset operand_scale bytecode n i range os.
Proof.
  unfold print_operand. intros H.
  destruct (GetOperandType bytecode i); try discriminate H; reflexivity.
Qed.

(** X9: [parameter_count] only reaches the output through the names of
    registers: when no operand of the instruction is a register or a
    register range, [Decode] does the same for every parameter count. *)
Theorem X9_parameter_count_only_names_registers (p : pointer) (pc1 pc2 : Z)
    (os : ostream) :
  (forall prefix_offset operand_scale bytecode i,
     resolve_prefix p = Done (prefix_offset, operand_scale, bytecode) ->
     IsDebugBreak bytecode = false ->
     0 <= i < NumberOfOperands bytecode ->
     prints_register (GetOperandType bytecode i) = false) ->
  Decode host p pc1 os = Decode host p pc2 os.
Proof.
  intros H. unfold Decode. rewrite !run_bind. unfold lift.
  destruct (resolve_prefix p) as [[[prefix_offset operand_scale] bytecode]|f];
    [|reflexivity].
  specialize (H prefix_offset operand_scale bytecode).
  repeat (apply bind_ext; intros ? ?).
  unfold print_operands. destruct (IsDebugBreak bytecode) eqn:Hbreak; [reflexivity|].
  rewrite !run_bind. unfold for_range.
  rewrite (for_fold_ext
             (print_operand host p pc1 prefix_offset operand_scale bytecode
                (NumberOfOperands bytecode))
             (print_operand host p pc2 prefix_offset operand_scale bytecode
                (NumberOfOperands bytecode))); [reflexivity|].
  intros j s' os'' Hj. apply print_operand_parameter_count.
  apply H; [reflexivity | reflexivity | lia].
Qed.

(** X10: the register decoder hands [Register::FromOperand] the signed
    value of the operand, which lies in [-2^(8n-1), 2^(8n-1)) for an operand
    of [n] bytes. *)
Theorem X10_register_operand_range (p : pointer) (t : OperandType.t)
    (operand_scale : OperandScale.t) :
  IsRegisterOperandType t = true ->
  IsUnsignedOperandType t = false ->
  SizeOfOperand t operand_scale <> OperandSize.kNone ->
  readable p (bytes_of (SizeOfOperand t operand_scale)) ->
  exists operand,
    DecodeSignedOperand host p t operand_scale = Done operand /\
    DecodeRegisterOperand host p t operand_scale
      = Done (Register.FromOperand operand) /\
    - 2 ^ (8 * bytes_of (SizeOfOperand t operand_scale) - 1) <= operand
      < 2 ^ (8 * bytes_of (SizeOfOperand t operand_scale) - 1).
Proof.
  intros Hreg Hu Hn Hr.
  destruct (operand_bits host p _ Hn Hr) as (u & Hrange & Hbits).
  pose proof (DecodeSignedOperand_bits host p t operand_scale u Hu Hbits) as Hs.
  eexists. split; [exact Hs|]. split.
  - unfold DecodeRegisterOperand. rewrite Hreg, Hs. reflexivity.
  - apply to_signed_bounds; [|exact Hrange].
    destruct (SizeOfOperand t operand_scale); [contradiction | | |]; reflexivity.
Qed.

End FurtherProperties.

(** ** The further properties on the sample tables *)

Lemma X1_witness :
  resolve_prefix (at_start [x03; x05]) = Done (0, OperandScale.kSingle, x03) /\
  readable (at_start [x03; x05]) 2 /\
  fmt starred <> ios.init /\
  fmt (snd (Decode LittleEndian (at_start [x03; x05]) 0 starred)) = ios.init.
Proof.
  assert (Hpre : resolve_prefix (at_start [x03; x05])
                 = Done (0, OperandScale.kSingle, x03)) by reflexivity.
  assert (Hr : readable (at_start [x03; x05]) 2) by (split; simpl; lia).
  split; [exact Hpre|]. split; [exact Hr|]. split; [discriminate|].
  exact (X1_default_format_after_Decode (md := table) (rs := registers)
           LittleEndian (at_start [x03; x05]) 0 starred 0 OperandScale.kSingle
           x03 Hpre Hr).
Defined.



Lemma X4_witness :
  Bytecodes.IsUnsignedOperandType OperandType.kRuntimeId = true /\
  Bytecodes.SizeOfOperand OperandType.kRuntimeId OperandScale.kSingle
    = OperandSize.kShort /\
  readable (at_start [x10; x01]) 2 /\
  exists v,
    DecodeUnsignedOperand LittleEndian (at_start [x10; x01])
      OperandType.kRuntimeId OperandScale.kSingle = Done v /\
    0 <= v < 2 ^ 16.
Proof.
  assert (Hr : readable (at_start [x10; x01]) 2) by (split; simpl; lia).
  split; [reflexivity|]. split; [reflexivity|]. split; [exact Hr|].
  exact (X4_unsigned_operand_range (md := table) LittleEndian (at_start [x10; x01])
           OperandType.kRuntimeId OperandScale.kSingle eq_refl
           ltac:(discriminate) Hr).
Defined.

Lemma X5_witness :
  Bytecodes.IsUnsignedOperandType OperandType.kImm = false /\
  Bytecodes.SizeOfOperand OperandType.kImm OperandScale.kSingle = OperandSize.kByte /\
  readable (at_start [x80]) 1 /\
  exists v,
    DecodeSignedOperand LittleEndian (at_start [x80])
      OperandType.kImm OperandScale.kSingle = Done v /\
    - 2 ^ 7 <= v < 2 ^ 7.
Proof.
  assert (Hr : readable (at_start [x80]) 1) by (split; simpl; lia).
  split; [reflexivity|]. split; [reflexivity|]. split; [exact Hr|].
  exact (X5_signed_operand_range (md := table) LittleEndian (at_start [x80])
           OperandType.kImm OperandScale.kSingle eq_refl ltac:(discriminate) Hr).
Defined.

Lemma X6_witness :
  Bytecodes.IsUnsignedOperandType OperandType.kImm = false /\
  Bytecodes.IsUnsignedOperandType OperandType.kIdx = true /\
  Bytecodes.SizeOfOperand OperandType.kImm OperandScale.kDouble
    = Bytecodes.SizeOfOperand OperandType.kIdx OperandScale.kDouble /\
  readable (at_start [x80; xff]) 2 /\
  exists vs vu,
    DecodeSignedOperand LittleEndian (at_start [x80; xff])
      OperandType.kImm OperandScale.kDouble = Done vs /\
    DecodeUnsignedOperand LittleEndian (at_start [x80; xff])
      OperandType.kIdx OperandScale.kDouble = Done vu /\
    vs mod 2 ^ 16 = vu /\
    (vs = vu <-> vu < 2 ^ 15).
Proof.
  assert (Hr : readable (at_start [x80; xff]) 2) by (split; simpl; lia).
  split; [reflexivity|]. split; [reflexivity|]. split; [reflexivity|].
  split; [exact Hr|].
  exact (X6_signed_and_unsigned_same_bits (md := table) LittleEndian
           (at_start [x80; xff]) OperandType.kImm OperandType.kIdx
           OperandScale.kDouble OperandScale.kDouble eq_refl eq_refl eq_refl
           ltac:(discriminate) Hr).
Defined.

Lemma X7_witness :
  @resolve_prefix Inconsistent.table (at_start [x03; x05])
    = Done (0, OperandScale.kSingle, x03) /\
  readable (at_start [x03; x05]) 2 /\
  @Bytecodes.NumberOfOperands Inconsistent.table x03 = 2 /\
  @operand_wf Inconsistent.table (at_start [x03; x05]) 0 OperandScale.kSingle x03 0 /\
  @Bytecodes.GetOperandType Inconsistent.table x03 1 = OperandType.kNone /\
  (fst (@Decode Inconsistent.table registers LittleEndian (at_start [x03; x05]) 0 fresh)
     = Fatal DCheckFailed \/
   fst (@Decode Inconsistent.table registers LittleEndian (at_start [x03; x05]) 0 fresh)
     = Fatal Unreachable).
Proof.
  assert (Hpre : @resolve_prefix Inconsistent.table (at_start [x03; x05])
                 = Done (0, OperandScale.kSingle, x03)) by reflexivity.
  assert (Hr : readable (at_start [x03; x05]) 2) by (split; simpl; lia).
  assert (Hwf : @operand_wf Inconsistent.table (at_start [x03; x05]) 0
                  OperandScale.kSingle x03 0)
    by (split; [reflexivity | split; simpl; lia]).
  split; [exact Hpre|]. split; [exact Hr|]. split; [reflexivity|].
  split; [exact Hwf|]. split; [reflexivity|].
  apply (X7_inconsistent_operand_halts (md := Inconsistent.table) (rs := registers)
           LittleEndian (at_start [x03; x05]) 0 fresh 0 OperandScale.kSingle x03 1
           Hpre Hr eq_refl).
  - simpl. lia.
  - intros j Hj. replace j with 0 by lia. exact Hwf.
  - reflexivity.
Defined.

Lemma X8_witness :
  resolve_prefix (at_start [x03; x05]) = Done (0, OperandScale.kSingle, x03) /\
  readable (at_start [x03; x05]) 2 /\
  String.length ("03 05 " ++ padding 4) = 18%nat /\
  exists rest,
    contents (snd (Decode LittleEndian (at_start [x03; x05]) 0 fresh)) =
    ("03 05 " ++ padding 4) ++ "LdaSmi" ++ " " ++ rest.
Proof.
  assert (Hpre : resolve_prefix (at_start [x03; x05])
                 = Done (0, OperandScale.kSingle, x03)) by reflexivity.
  assert (Hr : readable (at_start [x03; x05]) 2) by (split; simpl; lia).
  destruct (X8_mnemonic_column (md := table) (rs := registers) LittleEndian
              (at_start [x03; x05]) 0 fresh 0 OperandScale.kSingle x03 Hpre
              ltac:(simpl; lia) Hr)
    as (_ & Hcolumn & rest & Htext).
  split; [exact Hpre|]. split; [exact Hr|].
  split; [exact (Hcolumn ltac:(unfold kBytecodeColumnSize; simpl; lia))|].
  exists rest. exact Htext.
Defined.

Lemma X9_witness :
  (forall prefix_offset operand_scale bytecode i,
     resolve_prefix (at_start [x09; x07; x01])
       = Done (prefix_offset, operand_scale, bytecode) ->
     Bytecodes.IsDebugBreak bytecode = false ->
     0 <= i < Bytecodes.NumberOfOperands bytecode ->
     prints_register (Bytecodes.GetOperandType bytecode i) = false) /\
  Decode LittleEndian (at_start [x09; x07; x01]) 0 fresh =
  Decode LittleEndian (at_start [x09; x07; x01]) 5 fresh.
Proof.
  assert (Hops : forall prefix_offset operand_scale bytecode i,
     resolve_prefix (at_start [x09; x07; x01])
       = Done (prefix_offset, operand_scale, bytecode) ->
     Bytecodes.IsDebugBreak bytecode = false ->
     0 <= i < Bytecodes.NumberOfOperands bytecode ->
     prints_register (Bytecodes.GetOperandType bytecode i) = false).
  { intros prefix_offset operand_scale bytecode i E _ Hi.
    apply Done_inj in E. injection E as <- <- <-.
    change (@Bytecodes.NumberOfOperands table x09) with 2 in Hi.
    assert (Hcases : i = 0 \/ i = 1) by lia.
    destruct Hcases as [-> | ->]; reflexivity. }
  split; [exact Hops|].
  exact (X9_parameter_count_only_names_registers (md := table) (rs := registers)
           LittleEndian (at_start [x09; x07; x01]) 0 5 fresh Hops).
Defined.

Lemma X10_witness :
  Bytecodes.IsRegisterOperandType OperandType.kReg = true /\
  Bytecodes.IsUnsignedOperandType OperandType.kReg = false /\
  readable (at_start [xfe]) 1 /\
  exists operand,
    DecodeSignedOperand LittleEndian (at_start [xfe])
      OperandType.kReg OperandScale.kSingle = Done operand /\
    DecodeRegisterOperand LittleEndian (at_start [xfe])
      OperandType.kReg OperandScale.kSingle = Done (Register.FromOperand operand) /\
    - 2 ^ 7 <= operand < 2 ^ 7.
Proof.
  assert (Hr : readable (at_start [xfe]) 1) by (split; simpl; lia).
  split; [reflexivity|]. split; [reflexivity|]. split; [exact Hr|].
  exact (X10_register_operand_range (md := table) (rs := registers) LittleEndian
           (at_start [xfe]) OperandType.kReg OperandScale.kSingle eq_refl eq_refl
           ltac:(discriminate) Hr).
Defined.
